(** * nr_openai_observability.build_events: telemetry event builders

    A shallow embedding of [src/nr_openai_observability/build_events.py]:
    the token counters, the rate-limit extractor, the trace reader and the
    seven event builders, followed by the properties of the specification
    that concern them.

    Python values are dynamically typed; the embedding keeps that where the
    source depends on it (truthiness, slicing, [len], iteration) and uses
    Rocq types where the collaborating libraries fix the shape (response
    and error objects, HTTP headers).  A Python [str] is a [string] whose
    characters are code points 0..255, which is also how HTTP header bytes
    reach Python.  Exceptions are values of [exn]; ambient state (the uuid
    source, the wall clock, the tracing agent, the call variables) is
    threaded explicitly through a small state-and-error monad. *)

From Stdlib Require Import String Ascii List ZArith Bool Lia Floats.
From Stdlib Require Import DecimalString DecimalNat.
Import ListNotations.
Open Scope string_scope.
Open Scope Z_scope.

(* ================================================================== *)
(** ** Python values and exceptions *)

Module Py.

Inductive exn : Type :=
| TypeError
| ValueError
| OverflowError
| IndexError
| AttributeError.

Inductive res (A : Type) : Type :=
| Ok (a : A)
| Raise (e : exn).
Arguments Ok {A} a.
Arguments Raise {A} e.

#[warning="-register-all"]
Inductive value : Type :=
| VNone
| VBool (b : bool)
| VInt (n : Z)
| VFloat (f : float)
| VStr (s : string)
| VTime (t : Z)                       (* a datetime, as a clock reading *)
| VList (vs : list value)
| VDict (kvs : list (string * value)).

(** A dict is an insertion-ordered list of bindings with distinct keys. *)
Definition dict : Type := list (string * value).

Fixpoint dict_get (k : string) (d : dict) : option value :=
  match d with
  | [] => None
  | (k', v) :: d' => if String.eqb k k' then Some v else dict_get k d'
  end.

(** [d[k] = v]: overwrite in place, or append a new binding. *)
Fixpoint dict_set (k : string) (v : value) (d : dict) : dict :=
  match d with
  | [] => [(k, v)]
  | (k', v') :: d' =>
      if String.eqb k k' then (k', v) :: d' else (k', v') :: dict_set k v d'
  end.

(** [d.update(other)] *)
Definition dict_update (d other : dict) : dict :=
  fold_left (fun acc kv => dict_set (fst kv) (snd kv) acc) other d.

(** A dict display [{k1: v1, ..., **rest}]: bindings are inserted left to
    right, a later one replacing an earlier one with the same key. *)
Definition dict_of (items : list (string * value)) : dict :=
  dict_update [] items.

(** [d.get(k)] and [d.get(k, default)] *)
Definition get (d : dict) (k : string) : value :=
  match dict_get k d with Some v => v | None => VNone end.

Definition get_default (d : dict) (k : string) (default : value) : value :=
  match dict_get k d with Some v => v | None => default end.

(** Truth value testing. *)
Definition truthy (v : value) : bool :=
  match v with
  | VNone => false
  | VBool b => b
  | VInt n => negb (n =? 0)
  | VFloat f => negb (PrimFloat.eqb f 0%float)
  | VStr s => negb (String.eqb s "")
  | VTime _ => true
  | VList vs => match vs with [] => false | _ => true end
  | VDict kvs => match kvs with [] => false | _ => true end
  end.

(** [a or b] *)
Definition or_ (a b : value) : value := if truthy a then a else b.

(** *** Strings *)

(** [s[:n]] *)
Fixpoint str_take (n : nat) (s : string) {struct s} : string :=
  match s, n with
  | String c s', S n' => String c (str_take n' s')
  | _, _ => EmptyString
  end.

Fixpoint str_drop (n : nat) (s : string) {struct s} : string :=
  match s, n with
  | String _ s', S n' => str_drop n' s'
  | _, _ => s
  end.

(** [s[-n:]] for [n > 0] *)
Definition str_last (n : nat) (s : string) : string :=
  str_drop (String.length s - n) s.

(** [sub in s] *)
Fixpoint contains (sub s : string) : bool :=
  String.prefix sub s ||
  match s with
  | EmptyString => false
  | String _ s' => contains sub s'
  end.

(** [x[:n]]: strings and lists can be sliced; [None] and numbers are not
    subscriptable.  (Slicing a dict is an error too: a [TypeError] up to
    CPython 3.11.) *)
Definition slice_to (n : nat) (v : value) : res value :=
  match v with
  | VStr s => Ok (VStr (str_take n s))
  | VList vs => Ok (VList (firstn n vs))
  | _ => Raise TypeError
  end.

(** [len(x)] *)
Definition len (v : value) : res Z :=
  match v with
  | VStr s => Ok (Z.of_nat (String.length s))
  | VList vs => Ok (Z.of_nat (List.length vs))
  | VDict kvs => Ok (Z.of_nat (List.length kvs))
  | _ => Raise TypeError
  end.

(** [for x in v]: the elements the loop visits. *)
Fixpoint chars (s : string) : list value :=
  match s with
  | EmptyString => []
  | String c s' => VStr (String c EmptyString) :: chars s'
  end.

Definition iter (v : value) : res (list value) :=
  match v with
  | VList vs => Ok vs
  | VDict kvs => Ok (map (fun kv => VStr (fst kv)) kvs)
  | VStr s => Ok (chars s)
  | _ => Raise TypeError
  end.

(** [v.items()] *)
Definition items (v : value) : res dict :=
  match v with
  | VDict kvs => Ok kvs
  | _ => Raise AttributeError
  end.

(** [str.isdigit()]: every character has Unicode Numeric_Type Decimal or
    Digit, and there is at least one.  Among the code points 0..255 these
    are '0'..'9' and the superscripts U+00B2, U+00B3, U+00B9. *)
Definition is_decimal_char (c : ascii) : bool :=
  let n := nat_of_ascii c in (48 <=? n)%nat && (n <=? 57)%nat.

Definition is_digit_char (c : ascii) : bool :=
  let n := nat_of_ascii c in
  is_decimal_char c || (n =? 178)%nat || (n =? 179)%nat || (n =? 185)%nat.

Fixpoint all_chars (p : ascii -> bool) (s : string) : bool :=
  match s with
  | EmptyString => true
  | String c s' => p c && all_chars p s'
  end.

Definition isdigit (s : string) : bool :=
  negb (String.eqb s "") && all_chars is_digit_char s.

(** Decimal value of a string of ASCII digits, most significant first. *)
Fixpoint decimal_value (acc : Z) (s : string) : Z :=
  match s with
  | EmptyString => acc
  | String c s' => decimal_value (10 * acc + (Z.of_nat (nat_of_ascii c) - 48)) s'
  end.

(** The interpreter's default limit on the number of digits of a decimal
    literal that [int] converts ([sys.get_int_max_str_digits()]). *)
Definition int_max_str_digits : nat := 4300.

(** [int(s)] on the strings the source hands to it, those passing
    [isdigit]: a non-empty run of decimal digits is parsed, unless it has
    more digits than the interpreter converts, which raises [ValueError];
    a superscript digit is not a decimal literal and raises [ValueError]
    too. *)
Definition int_of_str (s : string) : res Z :=
  if negb (String.eqb s "") && all_chars is_decimal_char s
  then
    if (String.length s <=? int_max_str_digits)%nat
    then Ok (decimal_value 0 s)
    else Raise ValueError
  else Raise ValueError.

(** [str(n)] for a non-negative integer. *)
Definition str_of_nat (n : nat) : string :=
  NilEmpty.string_of_uint (Nat.to_uint n).

(** [int(x)] for a float: truncation towards zero; not-a-number and the
    infinities have no integer value. *)
Definition int_of_float (f : float) : res Z :=
  match Prim2SF f with
  | S754_zero _ => Ok 0
  | S754_infinity _ => Raise OverflowError
  | S754_nan => Raise ValueError
  | S754_finite sign m e =>
      let mag := if 0 <=? e then Z.pos m * 2 ^ e else Z.pos m / 2 ^ (- e) in
      Ok (if sign then - mag else mag)
  end.

End Py.
Import Py.

(* ================================================================== *)
(** ** Collaborators outside this module *)

(** The tokenizer library.  [encoding_for_model] raises [KeyError] when it
    knows no encoding for the model: that outcome is [None] here.  [encode]
    turns a string into its token list, or raises (a [ValueError] on text
    that spells one of the encoding's special tokens). *)
Record Tokenizer : Type := {
  encoding : Type;
  encoding_for_model : string -> option encoding;
  encode : encoding -> string -> res (list nat)
}.

(** The objects of the client library that the builders read. *)
Record Usage : Type := {
  usage_completion_tokens : value;
  usage_total_tokens : value;
  usage_prompt_tokens : value
}.

Record Choice : Type := { finish_reason : value }.

Record Response : Type := {
  resp_api_key : option string;        (* [None]: no key stored on the object *)
  resp_model : string;
  resp_id : value;
  resp_usage : Usage;
  resp_choices : list Choice;
  resp_api_type : value;
  resp_organization : value
}.

Record ErrorBody : Type := {
  err_message : value;
  err_type : value;
  err_code : value;
  err_param : value
}.

Record APIError : Type := {
  err_organization : value;
  err_http_status : value;
  err_error : ErrorBody
}.

(** Response headers: header name to header text. *)
Definition headers : Type := list (string * string).

Fixpoint header_get (name : string) (h : headers) : option string :=
  match h with
  | [] => None
  | (k, v) :: h' => if String.eqb name k then Some v else header_get name h'
  end.

Definition header_value (name : string) (h : headers) : value :=
  match header_get name h with Some s => VStr s | None => VNone end.

(* ================================================================== *)
(** ** Ambient state and the monad of the builders *)

Record World : Type := {
  uuid_source : nat -> string;     (* what successive [uuid.uuid4()] calls give *)
  uuid_drawn : nat;                (* how many have been drawn *)
  wall_clock : Z;                  (* what [datetime.now()] reads *)
  nr_span_id : value;              (* the tracing agent *)
  nr_trace_id : value;
  nr_transaction_guid : option value;   (* [None]: no current transaction *)
  var_conversation_id : value;     (* the call variables *)
  var_response_model : value;
  openai_api_key : option string   (* the client library's global key *)
}.

Definition M (A : Type) : Type := World -> res A * World.

Definition ret {A} (a : A) : M A := fun w => (Ok a, w).

Definition bind {A B} (m : M A) (k : A -> M B) : M B :=
  fun w =>
    match m w with
    | (Ok a, w') => k a w'
    | (Raise e, w') => (Raise e, w')
    end.

Definition lift {A} (r : res A) : M A := fun w => (r, w).

Notation "x <- m ;; k" := (bind m (fun x => k))
  (at level 61, m at next level, right associativity).
Notation "m ;;; k" := (bind m (fun _ => k))
  (at level 61, right associativity).

(** The world after [n] more uuids have been drawn. *)
Definition drawn (n : nat) (w : World) : World :=
  {| uuid_source := uuid_source w; uuid_drawn := n + uuid_drawn w;
     wall_clock := wall_clock w;
     nr_span_id := nr_span_id w; nr_trace_id := nr_trace_id w;
     nr_transaction_guid := nr_transaction_guid w;
     var_conversation_id := var_conversation_id w;
     var_response_model := var_response_model w;
     openai_api_key := openai_api_key w |}.

(** The world with the response model variable overwritten. *)
Definition with_response_model (model : value) (w : World) : World :=
  {| uuid_source := uuid_source w; uuid_drawn := uuid_drawn w;
     wall_clock := wall_clock w;
     nr_span_id := nr_span_id w; nr_trace_id := nr_trace_id w;
     nr_transaction_guid := nr_transaction_guid w;
     var_conversation_id := var_conversation_id w;
     var_response_model := model;
     openai_api_key := openai_api_key w |}.

(** [str(uuid.uuid4())] *)
Definition uuid4 : M string :=
  fun w => (Ok (uuid_source w (uuid_drawn w)), drawn 1 w).

(** [datetime.now()] *)
Definition datetime_now : M value := fun w => (Ok (VTime (wall_clock w)), w).

(** [newrelic.agent.current_span_id()], [current_trace_id()] and the guid
    of [current_transaction()]. *)
Definition current_span_id : M value := fun w => (Ok (nr_span_id w), w).
Definition current_trace_id : M value := fun w => (Ok (nr_trace_id w), w).
Definition current_transaction : M (option value) :=
  fun w => (Ok (nr_transaction_guid w), w).

(** Modelled from the spec: the functions of [call_vars], which is not among
    the sources.  The holder keeps a conversation id and a response model;
    a value is set by overwriting, read as it is, and never cleared. *)
Definition get_conversation_id : M value :=
  fun w => (Ok (var_conversation_id w), w).

(** Modelled from the spec: see [get_conversation_id]. *)
Definition get_response_model : M value :=
  fun w => (Ok (var_response_model w), w).

(** Modelled from the spec: see [get_conversation_id]. *)
Definition set_response_model (model : value) : M unit :=
  fun w => (Ok tt, with_response_model model w).

(** [openai.api_key] *)
Definition read_openai_api_key : M (option string) :=
  fun w => (Ok (openai_api_key w), w).

(** The error monad of the functions that touch no ambient state. *)
Definition res_bind {A B} (r : res A) (k : A -> res B) : res B :=
  match r with
  | Ok a => k a
  | Raise e => Raise e
  end.

Notation "x <~ r ;; k" := (res_bind r (fun x => k))
  (at level 61, r at next level, right associativity).

(* ================================================================== *)
(** ** Trace reader, rate-limit extractor, token counters *)

Definition get_trace_details : M dict :=
  span_id <- current_span_id ;;
  trace_id <- current_trace_id ;;
  transaction <- current_transaction ;;
  let transaction_id :=
    match transaction with Some guid => guid | None => VNone end in
  ret (dict_of
         [("span_id", span_id);
          ("trace_id", trace_id);
          ("trace.id", trace_id);
          ("transaction_id", transaction_id);
          ("transactionId", transaction_id)]).

(** [int(header) if header and header.isdigit() else None] *)
Definition _get_numeric_header (response_headers : headers) (name : string)
  : res value :=
  match header_get name response_headers with
  | Some header =>
      if negb (String.eqb header "") && isdigit header
      then n <~ int_of_str header ;; Ok (VInt n)
      else Ok VNone
  | None => Ok VNone
  end.

Definition _get_rate_limit_data (response_headers : headers) : res dict :=
  limit_requests <~ _get_numeric_header response_headers "ratelimit_limit_requests" ;;
  limit_tokens <~ _get_numeric_header response_headers "ratelimit_limit_tokens" ;;
  let reset_tokens := header_value "x-ratelimit-reset-tokens" response_headers in
  let reset_requests := header_value "x-ratelimit-reset-requests" response_headers in
  remaining_tokens <~ _get_numeric_header response_headers "ratelimit_remaining_tokens" ;;
  remaining_requests <~ _get_numeric_header response_headers "ratelimit_remaining_requests" ;;
  Ok (dict_of
        [("ratelimit_limit_requests", limit_requests);
         ("ratelimit_limit_tokens", limit_tokens);
         ("ratelimit_reset_tokens", reset_tokens);
         ("ratelimit_reset_requests", reset_requests);
         ("ratelimit_remaining_tokens", remaining_tokens);
         ("ratelimit_remaining_requests", remaining_requests)]).

Section TokenCounter.

Variable tk : Tokenizer.

(** [len(encoding.encode(value))]; the tokenizer accepts strings only. *)
Definition encoded_length (enc : encoding tk) (v : value) : res Z :=
  match v with
  | VStr s => tokens <~ encode tk enc s ;; Ok (Z.of_nat (List.length tokens))
  | _ => Raise TypeError
  end.

(** A token count or [None], as an event field. *)
Definition count_value (n : option Z) : value :=
  match n with Some z => VInt z | None => VNone end.

Definition calc_completion_tokens (model : string) (message_content : value)
  : res (option Z) :=
  match encoding_for_model tk model with
  | None => Ok None
  | Some enc => n <~ encoded_length enc message_content ;; Ok (Some n)
  end.

(** The inner loop, over [message.items()]. *)
Fixpoint count_items (enc : encoding tk) (num_of_tokens_per_name : Z)
         (kvs : dict) (num_of_tokens : Z) : res Z :=
  match kvs with
  | [] => Ok num_of_tokens
  | (key, v) :: rest =>
      n <~ encoded_length enc v ;;
      let num_of_tokens := num_of_tokens + n in
      let num_of_tokens :=
        if String.eqb key "name"
        then num_of_tokens + num_of_tokens_per_name
        else num_of_tokens in
      count_items enc num_of_tokens_per_name rest num_of_tokens
  end.

(** The outer loop, over the messages. *)
Fixpoint count_messages (enc : encoding tk)
         (num_of_tokens_per_msg num_of_tokens_per_name : Z)
         (messages : list value) (num_of_tokens : Z) : res Z :=
  match messages with
  | [] => Ok num_of_tokens
  | message :: rest =>
      let num_of_tokens := num_of_tokens + num_of_tokens_per_msg in
      kvs <~ items message ;;
      num_of_tokens <~ count_items enc num_of_tokens_per_name kvs num_of_tokens ;;
      count_messages enc num_of_tokens_per_msg num_of_tokens_per_name
                     rest num_of_tokens
  end.

(** The warning logged for an unsupported model is not part of the result
    and is left out. *)
Definition calc_prompt_tokens (model : string) (messages : value)
  : res (option Z) :=
  match encoding_for_model tk model with
  | None => Ok None
  | Some enc =>
      let legacy := String.eqb model "gpt-3.5-turbo-0301" in
      let num_of_tokens_per_msg := if legacy then 4 else 3 in
      let num_of_tokens_per_name := if legacy then -1 else 1 in
      if negb (contains "gpt-4" model) && negb (contains "gpt-3" model)
      then Ok None
      else
        msgs <~ iter messages ;;
        n <~ count_messages enc num_of_tokens_per_msg num_of_tokens_per_name
                            msgs 3 ;;
        Ok (Some n)
  end.

(** [completion_tokens + prompt_tokens if completion_tokens and
    prompt_tokens else None] *)
Definition total_tokens_of (completion_tokens prompt_tokens : option Z)
  : option Z :=
  if truthy (count_value completion_tokens)
     && truthy (count_value prompt_tokens)
  then
    match completion_tokens, prompt_tokens with
    | Some c, Some p => Some (c + p)
    | _, _ => None
    end
  else None.

End TokenCounter.

(* ================================================================== *)
(** ** Event builders *)

(** The longest text an event field keeps. *)
Definition max_chars : nat := 4095.

(** [f"sk-{key[-4:]}"] *)
Definition api_key_last_four_digits (key : option string) : res value :=
  match key with
  | Some s => Ok (VStr ("sk-" ++ str_last 4 s))
  | None => Raise TypeError
  end.

(** [int(response_time * 1000)] *)
Definition response_time_ms (response_time : float) : res value :=
  n <~ int_of_float (response_time * 1000)%float ;; Ok (VInt n).

(** [request.get("model") or request.get("engine")] *)
Definition request_model (request : dict) : value :=
  or_ (get request "model") (get request "engine").

(** [choices[0]] *)
Definition first_choice (choices : list Choice) : res Choice :=
  match choices with
  | c :: _ => Ok c
  | [] => Raise IndexError
  end.

Section MessageEvents.

Variables (completion_id : value)
          (message_id_override response_id : option string)
          (tags : dict) (start_seq_num : Z).

(** One turn of the loop of [build_messages_events]. *)
Definition message_event (index : nat) (message : dict) : M dict :=
  fresh <- uuid4 ;;
  let message_id :=
    match message_id_override, response_id with
    | Some override, _ => override
    | None, Some rid => rid ++ "-" ++ str_of_nat index
    | None, None => fresh
    end in
  id <- uuid4 ;;
  content <- lift (slice_to max_chars (or_ (get message "content") (VStr ""))) ;;
  model <- get_response_model ;;
  trace <- get_trace_details ;;
  let currMessage :=
    dict_of
      ([("id", VStr id);
        ("completion_id", completion_id);
        ("content", content);
        ("role", get message "role");
        ("sequence", VInt (Z.of_nat index + start_seq_num));
        ("model", model);
        ("vendor", VStr "openAI");
        ("ingest_source", VStr "PythonSDK")]
       ++ trace) in
  ret (dict_update currMessage tags).

Fixpoint message_events (index : nat) (messages : list dict) : M (list dict) :=
  match messages with
  | [] => ret []
  | message :: rest =>
      e <- message_event index message ;;
      events <- message_events (S index) rest ;;
      ret (e :: events)
  end.

End MessageEvents.

Definition build_messages_events
    (messages : list dict) (model : option string) (completion_id : value)
    (message_id_override response_id : option string)
    (tags : dict) (start_seq_num : Z) : M (list dict) :=
  completion_id <- current_span_id ;;
  trace_id <- current_trace_id ;;
  match model with
  | Some m => set_response_model (VStr m)
  | None => ret tt
  end ;;;
  message_events completion_id message_id_override response_id
                 tags start_seq_num 0 messages.

Section Completions.

Variable tk : Tokenizer.

Definition build_stream_completion_events
    (last_chunk : Response) (request : dict) (response_headers : headers)
    (message : dict) (response_time : float) (completion_id : value)
  : M dict :=
  let request_messages := get_default request "messages" (VList []) in
  prompt_tokens <-
    lift (calc_prompt_tokens tk (resp_model last_chunk) request_messages) ;;
  completion_tokens <-
    lift (calc_completion_tokens tk (resp_model last_chunk)
            (get_default message "content" (VStr ""))) ;;
  let total_tokens := total_tokens_of completion_tokens prompt_tokens in
  conversation_id <- get_conversation_id ;;
  last_four <- lift (api_key_last_four_digits (resp_api_key last_chunk)) ;;
  millis <- lift (response_time_ms response_time) ;;
  choice <- lift (first_choice (resp_choices last_chunk)) ;;
  n <- lift (len (get_default request "messages" (VList []))) ;;
  response <-
    lift (slice_to max_chars (or_ (get message "content") (VStr ""))) ;;
  trace <- get_trace_details ;;
  let completion :=
    dict_of
      ([("id", completion_id);
        ("conversation_id", conversation_id);
        ("api_key_last_four_digits", last_four);
        ("response_time", millis);
        ("request.model", request_model request);
        ("response.model", VStr (resp_model last_chunk));
        ("usage.completion_tokens", count_value completion_tokens);
        ("usage.total_tokens", count_value total_tokens);
        ("usage.prompt_tokens", count_value prompt_tokens);
        ("temperature", get request "temperature");
        ("max_tokens", get request "max_tokens");
        ("finish_reason", finish_reason choice);
        ("api_type", resp_api_type last_chunk);
        ("vendor", VStr "openAI");
        ("ingest_source", VStr "PythonSDK");
        ("number_of_messages", VInt (n + 1));
        ("organization", resp_organization last_chunk);
        ("api_version", header_value "openai-version" response_headers);
        ("response", response);
        ("stream", VBool true)]
       ++ trace) in
  rate_limit <- lift (_get_rate_limit_data response_headers) ;;
  ret (dict_update completion rate_limit).

End Completions.

Definition build_completion_summary
    (response : Response) (request : dict) (response_headers : headers)
    (response_time : float) (final_message : dict) (completion_id : value)
  : M dict :=
  conversation_id <- get_conversation_id ;;
  last_four <- lift (api_key_last_four_digits (resp_api_key response)) ;;
  millis <- lift (response_time_ms response_time) ;;
  choice <- lift (first_choice (resp_choices response)) ;;
  n <- lift (len (get_default request "messages" (VList []))) ;;
  text <-
    lift (slice_to max_chars (or_ (get final_message "content") (VStr ""))) ;;
  trace <- get_trace_details ;;
  let completion :=
    dict_of
      ([("id", completion_id);
        ("conversation_id", conversation_id);
        ("api_key_last_four_digits", last_four);
        ("response_time", millis);
        ("request.model", request_model request);
        ("response.model", VStr (resp_model response));
        ("response.id", resp_id response);
        ("usage.completion_tokens", usage_completion_tokens (resp_usage response));
        ("usage.total_tokens", usage_total_tokens (resp_usage response));
        ("usage.prompt_tokens", usage_prompt_tokens (resp_usage response));
        ("temperature", get request "temperature");
        ("max_tokens", get request "max_tokens");
        ("finish_reason", finish_reason choice);
        ("api_type", resp_api_type response);
        ("vendor", VStr "openAI");
        ("ingest_source", VStr "PythonSDK");
        ("number_of_messages",
           VInt (n + Z.of_nat (List.length (resp_choices response))));
        ("organization", resp_organization response);
        ("api_version", header_value "openai-version" response_headers);
        ("response", text);
        ("stream", VBool false)]
       ++ trace) in
  rate_limit <- lift (_get_rate_limit_data response_headers) ;;
  ret (dict_update completion rate_limit).

Definition build_completion_summary_for_error
    (request : dict) (error : APIError) (completion_id : value)
    (isStream : bool) : M dict :=
  key <- read_openai_api_key ;;
  last_four <- lift (api_key_last_four_digits key) ;;
  n <- lift (len (get_default request "messages" (VList []))) ;;
  trace <- get_trace_details ;;
  ret (dict_of
         ([("id", completion_id);
           ("api_key_last_four_digits", last_four);
           ("request.model", request_model request);
           ("temperature", get request "temperature");
           ("max_tokens", get request "max_tokens");
           ("vendor", VStr "openAI");
           ("ingest_source", VStr "PythonSDK");
           ("organization", err_organization error);
           ("number_of_messages", VInt n);
           ("error_status", err_http_status error);
           ("error_message", err_message (err_error error));
           ("error_type", err_type (err_error error));
           ("error_code", err_code (err_error error));
           ("error_param", err_param (err_error error));
           ("stream", VBool isStream)]
          ++ trace)).

Definition build_embedding_event
    (response : Response) (request : dict) (response_headers : headers)
    (response_time : float) : M dict :=
  embedding_id <- uuid4 ;;
  input <- lift (slice_to max_chars (get request "input")) ;;
  last_four <- lift (api_key_last_four_digits (resp_api_key response)) ;;
  timestamp <- datetime_now ;;
  millis <- lift (response_time_ms response_time) ;;
  trace <- get_trace_details ;;
  let embedding :=
    dict_of
      ([("id", VStr embedding_id);
        ("input", input);
        ("api_key_last_four_digits", last_four);
        ("timestamp", timestamp);
        ("response_time", millis);
        ("request.model", request_model request);
        ("response.model", VStr (resp_model response));
        ("usage.total_tokens", usage_total_tokens (resp_usage response));
        ("usage.prompt_tokens", usage_prompt_tokens (resp_usage response));
        ("api_type", resp_api_type response);
        ("vendor", VStr "openAI");
        ("ingest_source", VStr "PythonSDK");
        ("organization", resp_organization response);
        ("api_version", header_value "openai-version" response_headers)]
       ++ trace) in
  rate_limit <- lift (_get_rate_limit_data response_headers) ;;
  ret (dict_update embedding rate_limit).

Definition build_embedding_error_event (request : dict) (error : APIError)
  : M dict :=
  embedding_id <- uuid4 ;;
  key <- read_openai_api_key ;;
  last_four <- lift (api_key_last_four_digits key) ;;
  timestamp <- datetime_now ;;
  trace <- get_trace_details ;;
  ret (dict_of
         ([("id", VStr embedding_id);
           ("api_key_last_four_digits", last_four);
           ("timestamp", timestamp);
           ("request.model", request_model request);
           ("vendor", VStr "openAI");
           ("ingest_source", VStr "PythonSDK");
           ("organization", err_organization error);
           ("error_status", err_http_status error);
           ("error_message", err_message (err_error error));
           ("error_type", err_type (err_error error));
           ("error_code", err_code (err_error error));
           ("error_param", err_param (err_error error))]
          ++ trace)).

Definition build_ai_feedback_event
    (category rating message_id conversation_id request_id message : value)
  : M dict :=
  id <- uuid4 ;;
  timestamp <- datetime_now ;;
  ret (dict_of
         [("id", VStr id);
          ("conversation_id", conversation_id);
          ("message_id", message_id);
          ("request_id", request_id);
          ("rating", rating);
          ("message", message);
          ("category", category);
          ("ingest_source", VStr "PythonSDK");
          ("timestamp", timestamp)]).

(** A call of one of the seven builders with its arguments, and the events
    it returns (the message builder returns a list, the others one event). *)
Inductive call : Type :=
| CallMessages (messages : list dict) (model : option string)
               (completion_id : value)
               (message_id_override response_id : option string)
               (tags : dict) (start_seq_num : Z)
| CallStreamCompletion (last_chunk : Response) (request : dict)
                       (response_headers : headers) (message : dict)
                       (response_time : float) (completion_id : value)
| CallCompletionSummary (response : Response) (request : dict)
                        (response_headers : headers) (response_time : float)
                        (final_message : dict) (completion_id : value)
| CallCompletionError (request : dict) (error : APIError)
                      (completion_id : value) (isStream : bool)
| CallEmbedding (response : Response) (request : dict)
                (response_headers : headers) (response_time : float)
| CallEmbeddingError (request : dict) (error : APIError)
| CallFeedback (category rating message_id conversation_id request_id
                message : value).

Definition one (m : M dict) : M (list dict) := e <- m ;; ret [e].

Definition run (tk : Tokenizer) (c : call) : M (list dict) :=
  match c with
  | CallMessages messages model completion_id override response_id tags start =>
      build_messages_events messages model completion_id override response_id
                            tags start
  | CallStreamCompletion last_chunk request hs message response_time cid =>
      one (build_stream_completion_events tk last_chunk request hs message
             response_time cid)
  | CallCompletionSummary response request hs response_time final_message cid =>
      one (build_completion_summary response request hs response_time
             final_message cid)
  | CallCompletionError request error cid isStream =>
      one (build_completion_summary_for_error request error cid isStream)
  | CallEmbedding response request hs response_time =>
      one (build_embedding_event response request hs response_time)
  | CallEmbeddingError request error =>
      one (build_embedding_error_event request error)
  | CallFeedback category rating message_id conversation_id request_id message =>
      one (build_ai_feedback_event category rating message_id conversation_id
             request_id message)
  end.

(** The tags a call hands to its builder; only the message builder takes any. *)
Definition call_tags (c : call) : dict :=
  match c with
  | CallMessages _ _ _ _ _ tags _ => tags
  | _ => []
  end.

Definition is_feedback (c : call) : bool :=
  match c with CallFeedback _ _ _ _ _ _ => true | _ => false end.

(** The fields a builder fills from the uuid source and the wall clock:
    the message builder draws its ids, the embedding, embedding-error and
    feedback builders draw an id and read the clock, and the three
    completion builders do neither (their id is the caller's). *)
Definition stamped_fields (c : call) : list string :=
  match c with
  | CallMessages _ _ _ _ _ _ _ => ["id"]
  | CallEmbedding _ _ _ _ | CallEmbeddingError _ _
  | CallFeedback _ _ _ _ _ _ => ["id"; "timestamp"]
  | _ => []
  end.

(* ------------------------------------------------------------------ *)
(** *** Vocabulary of the properties *)

Definition carries_tags (e : dict) : Prop :=
  dict_get "vendor" e = Some (VStr "openAI") /\
  dict_get "ingest_source" e = Some (VStr "PythonSDK").

(** [t] is what truncation to [max_chars] keeps of [s]. *)
Definition kept_text (s t : string) : Prop :=
  (max_chars < String.length s ->
   String.length t = max_chars /\ String.prefix t s = true)%nat /\
  (String.length s <= max_chars -> t = s)%nat.

(** Field [k] of [e] holds the text [s] cut to [max_chars] characters. *)
Definition field_truncates (e : dict) (k s : string) : Prop :=
  exists t, dict_get k e = Some (VStr t) /\ kept_text s t.

(** Two events that differ at most on the fields [ks]. *)
Definition agree_except (ks : list string) (e1 e2 : dict) : Prop :=
  forall k, ~ In k ks -> dict_get k e1 = dict_get k e2.

(** Two outcomes of a builder: the same exception, or as many events, which
    pairwise differ at most on [ks]. *)
Definition results_agree (ks : list string) (r1 r2 : res (list dict)) : Prop :=
  match r1, r2 with
  | Ok es1, Ok es2 => Forall2 (agree_except ks) es1 es2
  | Raise x1, Raise x2 => x1 = x2
  | _, _ => False
  end.

(** Two worlds in which the tracing agent, the call variables and the
    client library's key read the same; the uuid source and the clock may
    have moved. *)
Definition same_ambient (w1 w2 : World) : Prop :=
  nr_span_id w1 = nr_span_id w2 /\
  nr_trace_id w1 = nr_trace_id w2 /\
  nr_transaction_guid w1 = nr_transaction_guid w2 /\
  var_conversation_id w1 = var_conversation_id w2 /\
  var_response_model w1 = var_response_model w2 /\
  openai_api_key w1 = openai_api_key w2.

(** The binding a dict display ends up with for [k]: the last one listed. *)
Fixpoint last_binding (k : string) (kvs : list (string * value)) : option value :=
  match kvs with
  | [] => None
  | (k', v) :: rest =>
      match last_binding k rest with
      | Some v' => Some v'
      | None => if String.eqb k k' then Some v else None
      end
  end.

(** The fields of [get_trace_details] in a given world. *)
Definition trace_details_of (w : World) : dict :=
  let transaction_id :=
    match nr_transaction_guid w with Some guid => guid | None => VNone end in
  dict_of
    [("span_id", nr_span_id w);
     ("trace_id", nr_trace_id w);
     ("trace.id", nr_trace_id w);
     ("transaction_id", transaction_id);
     ("transactionId", transaction_id)].

(** The tokens of all the values of a message, when they are strings the
    tokenizer encodes. *)
Fixpoint values_token_length (tk : Tokenizer) (enc : encoding tk) (kvs : dict)
  : Z :=
  match kvs with
  | [] => 0
  | (_, VStr s) :: rest =>
      match encode tk enc s with
      | Ok tokens => Z.of_nat (List.length tokens)
      | Raise _ => 0
      end + values_token_length tk enc rest
  | _ :: rest => values_token_length tk enc rest
  end.

(** What a numeric rate-limit field holds when no header text mixes in a
    superscript digit or outruns the digit limit of [int]: the number the
    header spells, or [None]. *)
Definition numeric_field (name : string) (h : headers) : value :=
  match header_get name h with
  | Some s =>
      if negb (String.eqb s "") && all_chars is_decimal_char s
      then VInt (decimal_value 0 s)
      else VNone
  | None => VNone
  end.

(** No header text passes [isdigit] without being a decimal literal that
    [int] converts. *)
Definition decimal_headers (h : headers) : Prop :=
  forall name s,
    header_get name h = Some s ->
    isdigit s = true ->
    all_chars is_decimal_char s = true /\
    (String.length s <= int_max_str_digits)%nat.

(** The event one turn of the message loop builds in world [w], once the
    content has been cut: the id is the second uuid the turn draws. *)
Definition message_event_of (completion_id : value) (tags : dict)
    (start_seq_num : Z) (w : World) (index : nat) (message : dict)
    (content : value) : dict :=
  dict_update
    (dict_of
       ([("id", VStr (uuid_source w (S (uuid_drawn w))));
         ("completion_id", completion_id);
         ("content", content);
         ("role", get message "role");
         ("sequence", VInt (Z.of_nat index + start_seq_num));
         ("model", var_response_model w);
         ("vendor", VStr "openAI");
         ("ingest_source", VStr "PythonSDK")]
        ++ trace_details_of w))
    tags.

(* ------------------------------------------------------------------ *)
(** *** Concrete collaborators for the examples *)

(** A tokenizer with one token per character, which knows the chat models
    and one embedding model and, like the real one, refuses text that
    spells its end-of-text token. *)
Definition char_tokens (s : string) : list nat :=
  map nat_of_ascii (list_ascii_of_string s).

Definition char_tokenizer : Tokenizer :=
  {| encoding := unit;
     encoding_for_model := fun model =>
       if contains "gpt-" model || String.eqb model "text-embedding-ada-002"
       then Some tt else None;
     encode := fun _ s =>
       if contains "<|endoftext|>" s then Raise ValueError
       else Ok (char_tokens s) |}.

Definition world0 : World :=
  {| uuid_source := fun n => "uuid-" ++ str_of_nat n;
     uuid_drawn := 0;
     wall_clock := 1700000000;
     nr_span_id := VStr "span-1";
     nr_trace_id := VStr "trace-1";
     nr_transaction_guid := Some (VStr "txn-1");
     var_conversation_id := VStr "conv-1";
     var_response_model := VNone;
     openai_api_key := Some "sk-test-abcd" |}.

(** [world0] a second later. *)
Definition world1 : World :=
  {| uuid_source := uuid_source world0;
     uuid_drawn := uuid_drawn world0;
     wall_clock := wall_clock world0 + 1;
     nr_span_id := nr_span_id world0;
     nr_trace_id := nr_trace_id world0;
     nr_transaction_guid := nr_transaction_guid world0;
     var_conversation_id := var_conversation_id world0;
     var_response_model := var_response_model world0;
     openai_api_key := openai_api_key world0 |}.

Definition response0 : Response :=
  {| resp_api_key := Some "sk-live-wxyz";
     resp_model := "gpt-3.5-turbo";
     resp_id := VStr "chatcmpl-1";
     resp_usage := {| usage_completion_tokens := VInt 5;
                      usage_total_tokens := VInt 12;
                      usage_prompt_tokens := VInt 7 |};
     resp_choices := [{| finish_reason := VStr "stop" |}];
     resp_api_type := VStr "open_ai";
     resp_organization := VStr "org-1" |}.

Definition error0 (message : string) : APIError :=
  {| err_organization := VStr "org-1";
     err_http_status := VInt 429;
     err_error := {| err_message := VStr message;
                     err_type := VStr "rate_limit_error";
                     err_code := VNone;
                     err_param := VNone |} |}.

Definition user_message (content : string) : dict :=
  [("role", VStr "user"); ("content", VStr content)].

Fixpoint repeat_char (c : ascii) (n : nat) : string :=
  match n with
  | O => EmptyString
  | S n' => String c (repeat_char c n')
  end.

(** A text one character longer than an event field keeps. *)
Definition long_text : string := repeat_char "a"%char (S max_chars).

(** The header text made of the single character U+00B2, superscript two. *)
Definition superscript_two : string :=
  String (ascii_of_nat 178) EmptyString.

(* ------------------------------------------------------------------ *)
(** *** Further vocabulary *)

(** The values [x[:n]] accepts. *)
Definition sliceable (v : value) : bool :=
  match v with
  | VStr _ | VList _ => true
  | _ => false
  end.

(** The request a call hands to its builder, when it takes one. *)
Definition call_request (c : call) : option dict :=
  match c with
  | CallStreamCompletion _ request _ _ _ _
  | CallCompletionSummary _ request _ _ _ _
  | CallCompletionError request _ _ _
  | CallEmbedding _ request _ _
  | CallEmbeddingError request _ => Some request
  | _ => None
  end.

(** The names under which the rate-limit record keeps its fields. *)
Definition rate_limit_fields : list string :=
  ["ratelimit_limit_requests"; "ratelimit_limit_tokens";
   "ratelimit_reset_tokens"; "ratelimit_reset_requests";
   "ratelimit_remaining_tokens"; "ratelimit_remaining_requests"].

(** The header names the four numeric rate-limit fields are read from. *)
Definition numeric_header_names : list string :=
  ["ratelimit_limit_requests"; "ratelimit_limit_tokens";
   "ratelimit_remaining_tokens"; "ratelimit_remaining_requests"].

(** The names of the fields [get_trace_details] supplies. *)
Definition trace_fields : list string :=
  ["span_id"; "trace_id"; "trace.id"; "transaction_id"; "transactionId"].

(** How many uuids a call draws: two for each message reached, one for
    each event of the builders that generate their own id. *)
Definition uuids_drawn_by (c : call) : nat :=
  match c with
  | CallMessages messages _ _ _ _ _ _ => 2 * List.length messages
  | CallEmbedding _ _ _ _ | CallEmbeddingError _ _
  | CallFeedback _ _ _ _ _ _ => 1
  | _ => 0
  end.

(** The headers a call hands to a builder that merges the rate-limit
    record into its event. *)
Definition call_headers (c : call) : option headers :=
  match c with
  | CallStreamCompletion _ _ hs _ _ _
  | CallCompletionSummary _ _ hs _ _ _
  | CallEmbedding _ _ hs _ => Some hs
  | _ => None
  end.

(** The world in which the loop of [build_messages_events] starts. *)
Definition loop_world (model : option string) (w : World) : World :=
  match model with
  | Some m => with_response_model (VStr m) w
  | None => w
  end.

(** The API key a call's builder reads, from the response object or from
    the client library, when it reads one. *)
Definition call_api_key (c : call) (w : World) : option (option string) :=
  match c with
  | CallStreamCompletion last_chunk _ _ _ _ _ => Some (resp_api_key last_chunk)
  | CallCompletionSummary response _ _ _ _ _
  | CallEmbedding response _ _ _ => Some (resp_api_key response)
  | CallCompletionError _ _ _ _
  | CallEmbeddingError _ _ => Some (openai_api_key w)
  | _ => None
  end.

(** [world0] with no key set in the client library. *)
Definition keyless_world : World :=
  {| uuid_source := uuid_source world0;
     uuid_drawn := uuid_drawn world0;
     wall_clock := wall_clock world0;
     nr_span_id := nr_span_id world0;
     nr_trace_id := nr_trace_id world0;
     nr_transaction_guid := nr_transaction_guid world0;
     var_conversation_id := var_conversation_id world0;
     var_response_model := var_response_model world0;
     openai_api_key := None |}.

(** [response0] with an empty choices list. *)
Definition response_without_choices : Response :=
  {| resp_api_key := resp_api_key response0;
     resp_model := resp_model response0;
     resp_id := resp_id response0;
     resp_usage := resp_usage response0;
     resp_choices := [];
     resp_api_type := resp_api_type response0;
     resp_organization := resp_organization response0 |}.

(* ================================================================== *)
(** * Properties *)

(** ** Dicts *)

Lemma dict_get_set k k' v d :
  dict_get k (dict_set k' v d) =
  if String.eqb k k' then Some v else dict_get k d.
Proof.
  induction d as [|[k0 v0] d IH]; simpl.
  - reflexivity.
  - destruct (String.eqb_spec k' k0) as [->|Hne]; simpl.
    + destruct (String.eqb k k0); reflexivity.
    + rewrite IH.
      destruct (String.eqb_spec k k0) as [->|]; [|reflexivity].
      destruct (String.eqb_spec k0 k') as [E|]; [|reflexivity].
      now subst.
Qed.

Lemma dict_get_update k other : forall d,
  dict_get k (dict_update d other) =
  match last_binding k other with
  | Some v => Some v
  | None => dict_get k d
  end.
Proof.
  unfold dict_update.
  induction other as [|[k0 v0] other IH]; intros d; simpl.
  - reflexivity.
  - rewrite IH, dict_get_set.
    destruct (last_binding k other); [reflexivity|].
    destruct (String.eqb k k0); reflexivity.
Qed.

Lemma dict_get_of k kvs : dict_get k (dict_of kvs) = last_binding k kvs.
Proof.
  unfold dict_of. rewrite dict_get_update.
  destruct (last_binding k kvs); reflexivity.
Qed.

Lemma last_binding_app k l1 l2 :
  last_binding k (l1 ++ l2) =
  match last_binding k l2 with
  | Some v => Some v
  | None => last_binding k l1
  end.
Proof.
  induction l1 as [|[k0 v0] l1 IH]; simpl.
  - destruct (last_binding k l2); reflexivity.
  - rewrite IH. destruct (last_binding k l2); reflexivity.
Qed.

(** Updating with a dict that does not bind [k] leaves field [k] alone. *)
Lemma last_binding_none k kvs :
  dict_get k kvs = None -> last_binding k kvs = None.
Proof.
  induction kvs as [|[k0 v0] kvs IH]; simpl; [reflexivity|].
  destruct (String.eqb k k0); [discriminate|].
  intros H. now rewrite IH.
Qed.

Lemma dict_get_update_absent k d other :
  dict_get k other = None ->
  dict_get k (dict_update d other) = dict_get k d.
Proof.
  intros H. rewrite dict_get_update, (last_binding_none _ _ H). reflexivity.
Qed.

Lemma agree_except_update ks d1 d2 other :
  agree_except ks d1 d2 ->
  agree_except ks (dict_update d1 other) (dict_update d2 other).
Proof.
  intros H k Hk. rewrite !dict_get_update, (H k Hk). reflexivity.
Qed.

(** Dict displays listing the same keys agree wherever their values do. *)
Lemma agree_except_of ks l1 l2 :
  Forall2 (fun kv1 kv2 =>
             fst kv1 = fst kv2 /\ (~ In (fst kv1) ks -> snd kv1 = snd kv2))
          l1 l2 ->
  agree_except ks (dict_of l1) (dict_of l2).
Proof.
  intros H k Hk. rewrite !dict_get_of.
  induction H as [|[k1 v1] [k2 v2] l1 l2 [Hkey Hval] _ IH]; simpl in *.
  - reflexivity.
  - subst k2. rewrite IH.
    destruct (last_binding k l2); [reflexivity|].
    destruct (String.eqb_spec k k1) as [->|]; [|reflexivity].
    now rewrite Hval.
Qed.

(** ** Strings *)

Lemma str_take_length n : forall s,
  String.length (str_take n s) = Nat.min n (String.length s).
Proof.
  induction n as [|n IH]; intros [|c s]; simpl; try reflexivity.
  now rewrite IH.
Qed.

Lemma str_take_all n : forall s,
  (String.length s <= n)%nat -> str_take n s = s.
Proof.
  induction n as [|n IH]; intros [|c s]; simpl; intros H;
    try reflexivity; try lia.
  rewrite IH by lia. reflexivity.
Qed.

Lemma str_take_prefix n : forall s, String.prefix (str_take n s) s = true.
Proof.
  induction n as [|n IH]; intros [|c s]; simpl; try reflexivity.
  destruct (ascii_dec c c) as [_|Hne]; [apply IH | now elim Hne].
Qed.

Lemma kept_text_take s : kept_text s (str_take max_chars s).
Proof.
  split; intros H.
  - split; [|apply str_take_prefix].
    rewrite str_take_length. lia.
  - now apply str_take_all.
Qed.

(** ** Running the monad *)

Lemma res_bind_Ok {A B} (r : res A) (k : A -> res B) b :
  res_bind r k = Ok b -> exists a, r = Ok a /\ k a = Ok b.
Proof.
  destruct r as [a|e]; simpl; intros H; [now exists a | discriminate].
Qed.

Lemma get_trace_details_run w :
  get_trace_details w = (Ok (trace_details_of w), w).
Proof. reflexivity. Qed.

(** ** Token counter *)

Lemma total_tokens_of_both c p :
  c <> 0 -> p <> 0 -> total_tokens_of (Some c) (Some p) = Some (c + p).
Proof.
  intros Hc Hp. unfold total_tokens_of; simpl.
  destruct (Z.eqb_spec c 0); [contradiction|].
  destruct (Z.eqb_spec p 0); [contradiction|]. reflexivity.
Qed.

Lemma total_tokens_of_undefined c p :
  c = None \/ p = None -> total_tokens_of c p = None.
Proof.
  unfold total_tokens_of.
  intros [->| ->]; [reflexivity|].
  destruct c; simpl; [|reflexivity].
  now rewrite andb_false_r.
Qed.

Lemma total_tokens_of_zero p : total_tokens_of (Some 0) (Some p) = None.
Proof. reflexivity. Qed.

Lemma encoded_length_nonneg tk enc v n :
  encoded_length tk enc v = Ok n -> 0 <= n.
Proof.
  unfold encoded_length. destruct v; try discriminate.
  intros H. apply res_bind_Ok in H as (tokens & _ & H).
  inversion H. lia.
Qed.

Lemma count_items_strings tk enc per_name : forall kvs acc,
  dict_get "name" kvs = None ->
  (forall k v, In (k, v) kvs ->
     exists s tokens, v = VStr s /\ encode tk enc s = Ok tokens) ->
  count_items tk enc per_name kvs acc =
  Ok (acc + values_token_length tk enc kvs).
Proof.
  induction kvs as [|[k v] kvs IH]; intros acc Hname Hstr.
  - simpl. now rewrite Z.add_0_r.
  - cbn [dict_get] in Hname.
    destruct (Hstr k v (or_introl eq_refl)) as (s & tokens & -> & Henc).
    cbn [count_items encoded_length values_token_length].
    rewrite Henc. cbn [res_bind].
    rewrite String.eqb_sym. revert Hname.
    destruct ("name" =? k)%string; intros Hname; [discriminate|].
    rewrite IH; [f_equal; lia | assumption |].
    intros k' v' Hin. apply (Hstr k' v'). now right.
Qed.

(** C8. For a model with no encoding both counters return None, whatever
    the text or the messages, and do not raise; the prompt counter also
    returns None for every model whose name contains neither "gpt-4" nor
    "gpt-3". *)
Theorem C8_unknown_model_counts_are_none tk model :
  (encoding_for_model tk model = None ->
   (forall text, calc_completion_tokens tk model text = Ok None) /\
   (forall messages, calc_prompt_tokens tk model messages = Ok None)) /\
  (contains "gpt-4" model = false -> contains "gpt-3" model = false ->
   forall messages, calc_prompt_tokens tk model messages = Ok None).
Proof.
  split.
  - intros H. split; intros x.
    + unfold calc_completion_tokens. now rewrite H.
    + unfold calc_prompt_tokens. now rewrite H.
  - intros H4 H3 messages. unfold calc_prompt_tokens.
    destruct (encoding_for_model tk model); [|reflexivity].
    now rewrite H4, H3.
Qed.

Lemma C8_witness :
  calc_completion_tokens char_tokenizer "claude-2" (VStr "hello") = Ok None /\
  calc_prompt_tokens char_tokenizer "claude-2"
    (VList [VDict (user_message "hello")]) = Ok None /\
  calc_prompt_tokens char_tokenizer "text-embedding-ada-002"
    (VList [VDict (user_message "hello")]) = Ok None.
Proof.
  destruct (C8_unknown_model_counts_are_none char_tokenizer "claude-2")
    as [Hnone _].
  destruct (Hnone eq_refl) as [Hc Hp].
  destruct (C8_unknown_model_counts_are_none char_tokenizer
              "text-embedding-ada-002") as [_ Hfamily].
  split; [apply Hc|]. split; [apply Hp|].
  exact (Hfamily eq_refl eq_refl _).
Defined.

(** C3 as stated fails: with a role in the message, the role's tokens are
    counted as well as the content's. *)
Lemma C3_role_tokens_are_counted :
  encoding_for_model char_tokenizer "gpt-3.5-turbo-0301" = Some tt /\
  dict_get "name" (user_message "hi") = None /\
  dict_get "content" (user_message "hi") = Some (VStr "hi") /\
  encode char_tokenizer tt "hi" = Ok (char_tokens "hi") /\
  calc_prompt_tokens char_tokenizer "gpt-3.5-turbo-0301"
    (VList [VDict (user_message "hi")])
  <> Ok (Some (3 + 4 + Z.of_nat (List.length (char_tokens "hi")))).
Proof.
  repeat split; try reflexivity.
  vm_compute. discriminate.
Qed.

(** C3, amended. For model "gpt-3.5-turbo-0301" and a prompt of one message
    with no "name" key whose values are strings the tokenizer encodes, the
    prompt counter returns 3 + 4 + the token lengths of all the message's
    values, the role as well as the content; when content is the message's
    only key this is 3 + 4 + the token length of the content. *)
Theorem C3_legacy_prompt_tokens tk enc message :
  encoding_for_model tk "gpt-3.5-turbo-0301" = Some enc ->
  dict_get "name" message = None ->
  (forall k v, In (k, v) message ->
     exists s tokens, v = VStr s /\ encode tk enc s = Ok tokens) ->
  calc_prompt_tokens tk "gpt-3.5-turbo-0301" (VList [VDict message]) =
    Ok (Some (3 + 4 + values_token_length tk enc message)) /\
  (forall content tokens,
     message = [("content", VStr content)] ->
     encode tk enc content = Ok tokens ->
     calc_prompt_tokens tk "gpt-3.5-turbo-0301" (VList [VDict message]) =
       Ok (Some (3 + 4 + Z.of_nat (List.length tokens)))).
Proof.
  intros Henc Hname Hstr.
  assert (Hcount :
    calc_prompt_tokens tk "gpt-3.5-turbo-0301" (VList [VDict message]) =
    Ok (Some (3 + 4 + values_token_length tk enc message))).
  { unfold calc_prompt_tokens. rewrite Henc.
    change (contains "gpt-4" "gpt-3.5-turbo-0301") with false.
    change (contains "gpt-3" "gpt-3.5-turbo-0301") with true.
    simpl. rewrite (count_items_strings tk enc _ message _ Hname Hstr).
    reflexivity. }
  split; [exact Hcount|].
  intros content tokens -> Htok. rewrite Hcount.
  cbn [values_token_length]. rewrite Htok. now rewrite Z.add_0_r.
Qed.

Lemma C3_witness :
  calc_prompt_tokens char_tokenizer "gpt-3.5-turbo-0301"
    (VList [VDict (user_message "hi")]) = Ok (Some 13).
Proof.
  refine (proj1 (C3_legacy_prompt_tokens char_tokenizer tt (user_message "hi")
                   eq_refl eq_refl _)).
  intros k v [H|[H|[]]]; inversion H; eexists; eexists; split; reflexivity.
Defined.

(** Text the tokenizer refuses is not counted: the prompt counter raises
    what [encode] raises on the first value it cannot encode. *)
Lemma prompt_count_raises_on_refused_text tk model enc key s x rest more :
  encoding_for_model tk model = Some enc ->
  (contains "gpt-4" model || contains "gpt-3" model = true) ->
  encode tk enc s = Raise x ->
  calc_prompt_tokens tk model (VList (VDict ((key, VStr s) :: rest) :: more))
  = Raise x.
Proof.
  intros Henc Hfam Hraise. unfold calc_prompt_tokens. rewrite Henc.
  destruct (contains "gpt-4" model), (contains "gpt-3" model);
    try discriminate Hfam;
    cbn [negb andb iter res_bind count_messages items count_items
         encoded_length]; rewrite Hraise; reflexivity.
Qed.

(** ** Rate-limit extractor *)

Lemma numeric_header_decimal h name :
  decimal_headers h ->
  _get_numeric_header h name = Ok (numeric_field name h).
Proof.
  intros Hdec. unfold _get_numeric_header, numeric_field.
  destruct (header_get name h) as [s|] eqn:Hget; [|reflexivity].
  destruct (String.eqb_spec s "") as [->|Hne]; [reflexivity|].
  cbn [negb andb].
  destruct (isdigit s) eqn:Hdig.
  - unfold int_of_str.
    destruct (Hdec name s Hget Hdig) as [Hall Hlen]. rewrite Hall.
    destruct (String.eqb_spec s ""); [contradiction|]. cbn [negb andb].
    apply Nat.leb_le in Hlen. rewrite Hlen. reflexivity.
  - destruct (all_chars is_decimal_char s) eqn:Hall; [|reflexivity].
    exfalso. revert Hdig. unfold isdigit.
    destruct (String.eqb_spec s ""); [contradiction|]. cbn [negb andb].
    assert (Hmono : forall t, all_chars is_decimal_char t = true ->
                              all_chars is_digit_char t = true).
    { induction t as [|c t IH]; cbn [all_chars]; [reflexivity|].
      intros H. apply andb_prop in H as [Hc Ht].
      rewrite (IH Ht). unfold is_digit_char. rewrite Hc. reflexivity. }
    now rewrite (Hmono s Hall).
Qed.

(** Away from superscript digits and over-long digit runs the extractor
    does what C7 says: it returns
    a record with all six fields, the numeric ones parsed exactly from the
    non-empty all-digit header texts and None otherwise, the reset ones
    passed through. *)
Lemma rate_limit_data_decimal h :
  decimal_headers h ->
  exists d,
    _get_rate_limit_data h = Ok d /\
    dict_get "ratelimit_limit_requests" d =
      Some (numeric_field "ratelimit_limit_requests" h) /\
    dict_get "ratelimit_limit_tokens" d =
      Some (numeric_field "ratelimit_limit_tokens" h) /\
    dict_get "ratelimit_remaining_tokens" d =
      Some (numeric_field "ratelimit_remaining_tokens" h) /\
    dict_get "ratelimit_remaining_requests" d =
      Some (numeric_field "ratelimit_remaining_requests" h) /\
    dict_get "ratelimit_reset_tokens" d =
      Some (header_value "x-ratelimit-reset-tokens" h) /\
    dict_get "ratelimit_reset_requests" d =
      Some (header_value "x-ratelimit-reset-requests" h).
Proof.
  intros Hdec. unfold _get_rate_limit_data.
  rewrite !(numeric_header_decimal h _ Hdec). cbn [res_bind].
  eexists. split; [reflexivity|].
  repeat split.
Qed.

(** C7. A header whose text is the superscript digit U+00B2 passes the
    isdigit guard and is handed to int, which rejects it: the extractor
    raises ValueError where the claim has a record and no exception. *)
Theorem C7_superscript_digit_header_raises :
  isdigit superscript_two = true /\
  _get_rate_limit_data [("ratelimit_limit_requests", superscript_two)]
  = Raise ValueError.
Proof. split; reflexivity. Qed.

(** ** Embedding input *)

(** C10. When the request has no "input", or has None there, the embedding
    builder raises (a TypeError, from slicing None) and returns no event;
    the message builder, given a message with no content, returns an event
    whose content is the empty string. *)
Theorem C10_embedding_without_input_raises response request hs response_time w :
  dict_get "input" request = None \/ dict_get "input" request = Some VNone ->
  fst (build_embedding_event response request hs response_time w)
  = Raise TypeError /\
  (forall message model completion_id override response_id tags start,
     get message "content" = VNone ->
     dict_get "content" tags = None ->
     exists e w',
       build_messages_events [message] model completion_id override
         response_id tags start w = (Ok [e], w') /\
       dict_get "content" e = Some (VStr "")).
Proof.
  intros Habsent.
  assert (Hin : get request "input" = VNone)
    by (unfold get; destruct Habsent as [-> | ->]; reflexivity).
  split.
  - unfold build_embedding_event, bind, uuid4, lift. rewrite Hin. reflexivity.
  - intros message model completion_id override response_id tags start Hc Ht.
    unfold build_messages_events, message_events, message_event, bind, lift.
    rewrite Hc.
    destruct model as [m|]; cbn -[dict_of dict_update];
      (eexists; eexists; split; [reflexivity|]);
      rewrite (dict_get_update_absent _ _ _ Ht), dict_get_of; reflexivity.
Qed.

Lemma C10_witness :
  fst (build_embedding_event response0 [("model", VStr "text-embedding-ada-002")]
         [] 0.25%float world0) = Raise TypeError.
Proof.
  exact (proj1 (C10_embedding_without_input_raises response0
                  [("model", VStr "text-embedding-ada-002")] [] 0.25%float
                  world0 (or_introl eq_refl))).
Defined.

(** ** Shape of the built events *)

Lemma rate_limit_data_shape h d :
  _get_rate_limit_data h = Ok d ->
  exists a b c e,
    d = dict_of
          [("ratelimit_limit_requests", a);
           ("ratelimit_limit_tokens", b);
           ("ratelimit_reset_tokens", header_value "x-ratelimit-reset-tokens" h);
           ("ratelimit_reset_requests", header_value "x-ratelimit-reset-requests" h);
           ("ratelimit_remaining_tokens", c);
           ("ratelimit_remaining_requests", e)].
Proof.
  unfold _get_rate_limit_data. intros H.
  apply res_bind_Ok in H as (a & _ & H).
  apply res_bind_Ok in H as (b & _ & H).
  apply res_bind_Ok in H as (c & _ & H).
  apply res_bind_Ok in H as (e & _ & H).
  inversion H. now exists a, b, c, e.
Qed.

(** Running a builder to a returned event: peel the steps that can raise. *)
Ltac peel H :=
  repeat match type of H with
         | context [match ?x with Ok _ => _ | Raise _ => _ end] =>
             let E := fresh "E" in destruct x eqn:E; try discriminate H
         end.

Ltac shape H :=
  peel H; inversion H; subst; clear H;
  repeat match goal with
         | E : _get_rate_limit_data _ = Ok _ |- _ =>
             apply rate_limit_data_shape in E as (? & ? & ? & ? & ->)
         end.

Lemma kept_content message s :
  get message "content" = VStr s ->
  slice_to max_chars (or_ (get message "content") (VStr ""))
  = Ok (VStr (str_take max_chars s)).
Proof.
  intros ->. unfold or_. cbn [truthy].
  destruct (String.eqb_spec s "") as [->|]; reflexivity.
Qed.

Lemma message_event_run completion_id override response_id tags start
      index message w :
  message_event completion_id override response_id tags start index message w =
  (match slice_to max_chars (or_ (get message "content") (VStr "")) with
   | Ok content =>
       Ok (message_event_of completion_id tags start w index message content)
   | Raise x => Raise x
   end,
   drawn 2 w).
Proof.
  unfold message_event, bind, uuid4, lift.
  destruct (slice_to max_chars (or_ (get message "content") (VStr "")));
    reflexivity.
Qed.

Lemma same_ambient_refl w : same_ambient w w.
Proof. repeat split. Qed.

Lemma same_ambient_sym w1 w2 : same_ambient w1 w2 -> same_ambient w2 w1.
Proof. unfold same_ambient. intuition congruence. Qed.

Lemma same_ambient_trans w1 w2 w3 :
  same_ambient w1 w2 -> same_ambient w2 w3 -> same_ambient w1 w3.
Proof. unfold same_ambient. intuition congruence. Qed.

Lemma same_ambient_drawn n w : same_ambient w (drawn n w).
Proof. repeat split. Qed.

(** The events of the message loop, one per message in order: each is built
    in a world that reads like the starting one. *)
Lemma message_events_shape completion_id override response_id tags start :
  forall messages index w es w',
    message_events completion_id override response_id tags start
                   index messages w = (Ok es, w') ->
    Forall2
      (fun message e =>
         exists i content w0,
           same_ambient w w0 /\
           slice_to max_chars (or_ (get message "content") (VStr ""))
           = Ok content /\
           e = message_event_of completion_id tags start w0 i message content)
      messages es.
Proof.
  induction messages as [|message rest IH]; intros index w es w' H.
  - inversion H. constructor.
  - cbn [message_events] in H. unfold bind in H.
    rewrite message_event_run in H.
    destruct (slice_to max_chars (or_ (get message "content") (VStr "")))
      as [content|x] eqn:Hcut; [|discriminate].
    destruct (message_events completion_id override response_id tags start
                (S index) rest (drawn 2 w)) as [[es'|x] w1] eqn:Hrest;
      [|discriminate].
    inversion H; subst. constructor.
    + exists index, content, w. repeat split. assumption.
    + specialize (IH _ _ _ _ Hrest).
      eapply Forall2_impl; [|exact IH].
      intros m e (i & c & w0 & Ha & Hc & He).
      exists i, c, w0. split; [|now split].
      eapply same_ambient_trans; [apply (same_ambient_drawn 2)|exact Ha].
Qed.

Lemma build_messages_events_shape messages model completion_id override
      response_id tags start w es w' :
  build_messages_events messages model completion_id override response_id
                        tags start w = (Ok es, w') ->
  Forall2
    (fun message e =>
       exists i content w0,
         nr_span_id w0 = nr_span_id w /\
         slice_to max_chars (or_ (get message "content") (VStr ""))
         = Ok content /\
         e = message_event_of (nr_span_id w) tags start w0 i message content)
    messages es.
Proof.
  unfold build_messages_events, bind, current_span_id, current_trace_id.
  intros H.
  destruct model as [m|]; cbn -[message_events] in H;
    apply message_events_shape in H;
    (eapply Forall2_impl; [|exact H]);
    intros msg e (i & c & w0 & Ha & Hc & He);
    exists i, c, w0; (split; [|now split]);
    destruct Ha as (Hs & _); now rewrite <- Hs.
Qed.

Lemma Forall2_In_r {A B} (R : A -> B -> Prop) l1 l2 y :
  Forall2 R l1 l2 -> In y l2 -> exists x, In x l1 /\ R x y.
Proof.
  induction 1 as [|a b l1 l2 Hab _ IH]; intros Hin; [contradiction|].
  destruct Hin as [->|Hin].
  - exists a. split; [now left | assumption].
  - destruct (IH Hin) as (x & Hx & HR). exists x. split; [now right | assumption].
Qed.

(** Unfold a builder call down to its steps. *)
Ltac steps H :=
  unfold one, bind, lift, ret, uuid4, datetime_now, get_conversation_id,
    read_openai_api_key in H;
  repeat rewrite get_trace_details_run in H;
  cbn -[dict_of dict_update trace_details_of slice_to or_ get get_default
        len first_choice api_key_last_four_digits response_time_ms
        _get_rate_limit_data calc_prompt_tokens calc_completion_tokens
        total_tokens_of count_value request_model header_value] in H.

(** ** Vendor and ingest-source tags *)

(** C1 as stated fails: a feedback event has no vendor field. *)
Lemma C1_feedback_event_has_no_vendor :
  exists e w',
    run char_tokenizer
        (CallFeedback (VStr "accuracy") (VInt 4) (VStr "msg-1")
                      (VStr "conv-1") (VStr "req-1") (VStr "close enough"))
        world0 = (Ok [e], w') /\
    ~ carries_tags e.
Proof.
  eexists. eexists. split; [vm_compute; reflexivity|].
  intros [Hvendor _]. vm_compute in Hvendor. discriminate.
Qed.

(** C1, amended. Every event of the message, completion-summary,
    streaming-completion, completion-error, embedding and embedding-error
    builders has vendor = "openAI" and ingest_source = "PythonSDK" (for the
    message builder: unless the caller's tags rebind those keys); a
    feedback event has ingest_source = "PythonSDK" and no vendor field. *)
Theorem C1_events_carry_tags tk c w es w' e :
  run tk c w = (Ok es, w') ->
  In e es ->
  dict_get "vendor" (call_tags c) = None ->
  dict_get "ingest_source" (call_tags c) = None ->
  dict_get "ingest_source" e = Some (VStr "PythonSDK") /\
  dict_get "vendor" e = if is_feedback c then None else Some (VStr "openAI").
Proof.
  intros H Hin Hv Hi.
  destruct c; cbn [run call_tags is_feedback] in *.
  - apply build_messages_events_shape in H.
    destruct (Forall2_In_r _ _ _ _ H Hin)
      as (message & _ & i & content & w0 & _ & _ & ->).
    unfold message_event_of.
    rewrite !dict_get_update_absent by assumption.
    split; vm_compute; reflexivity.
  - unfold build_stream_completion_events in H. steps H. shape H.
    destruct Hin as [<-|[]]. split; vm_compute; reflexivity.
  - unfold build_completion_summary in H. steps H. shape H.
    destruct Hin as [<-|[]]. split; vm_compute; reflexivity.
  - unfold build_completion_summary_for_error in H. steps H. shape H.
    destruct Hin as [<-|[]]. split; vm_compute; reflexivity.
  - unfold build_embedding_event in H. steps H. shape H.
    destruct Hin as [<-|[]]. split; vm_compute; reflexivity.
  - unfold build_embedding_error_event in H. steps H. shape H.
    destruct Hin as [<-|[]]. split; vm_compute; reflexivity.
  - unfold build_ai_feedback_event in H. steps H. shape H.
    destruct Hin as [<-|[]]. split; vm_compute; reflexivity.
Qed.

Lemma C1_witness :
  exists e,
    dict_get "ingest_source" e = Some (VStr "PythonSDK") /\
    dict_get "vendor" e = Some (VStr "openAI").
Proof.
  eexists.
  refine (C1_events_carry_tags char_tokenizer
            (CallCompletionError [("model", VStr "gpt-4")] (error0 "slow down")
                                 (VStr "cid") false)
            world0 _ _ _ eq_refl (or_introl eq_refl) eq_refl eq_refl).
Defined.

(** ** Message ids and completion ids *)

(** The message builder's result does not depend on the completion id,
    the override id or the response id it is given. *)
Lemma build_messages_events_ignores_ids messages model tags start
      completion_id override response_id completion_id' override' response_id' w :
  build_messages_events messages model completion_id override response_id
                        tags start w =
  build_messages_events messages model completion_id' override' response_id'
                        tags start w.
Proof.
  unfold build_messages_events, bind, current_span_id, current_trace_id.
  assert (Hloop : forall cid ms index w0,
    message_events cid override response_id tags start index ms w0 =
    message_events cid override' response_id' tags start index ms w0).
  { intros cid ms. induction ms as [|m ms IH]; intros index w0; [reflexivity|].
    cbn [message_events]. unfold bind.
    rewrite !message_event_run.
    destruct (slice_to max_chars (or_ (get m "content") (VStr "")));
      [|reflexivity].
    now rewrite IH. }
  destruct model; cbn -[message_events]; apply Hloop.
Qed.

(** C4. The id field of a message event never comes from the override id
    or the response id: the builder returns the same events whether or not
    they are given.  With an override id, or failing that a response id,
    the id field is still a freshly drawn uuid; the resolved message id is
    computed and then not used. *)
Theorem C4_message_id_is_always_fresh :
  (forall messages model completion_id override response_id tags start w,
     build_messages_events messages model completion_id override response_id
                           tags start w =
     build_messages_events messages model completion_id None None
                           tags start w) /\
  (exists e w',
     build_messages_events [user_message "hi"] (Some "gpt-4") (VStr "cid")
       (Some "step-7") (Some "chatcmpl-1") [] 0 world0 = (Ok [e], w') /\
     dict_get "id" e = Some (VStr (uuid_source world0 1)) /\
     dict_get "id" e <> Some (VStr "step-7")) /\
  (exists e w',
     build_messages_events [user_message "hi"] (Some "gpt-4") (VStr "cid")
       None (Some "chatcmpl-1") [] 0 world0 = (Ok [e], w') /\
     dict_get "id" e = Some (VStr (uuid_source world0 1)) /\
     dict_get "id" e <> Some (VStr "chatcmpl-1-0")).
Proof.
  split; [intros; apply build_messages_events_ignores_ids|].
  split; (eexists; eexists; split; [vm_compute; reflexivity|]);
    (split; [reflexivity | vm_compute; discriminate]).
Qed.

(** C5 as stated fails: a completion_id among the caller's tags replaces
    the span id in the event. *)
Lemma C5_tags_rebind_completion_id :
  exists e w',
    build_messages_events [user_message "hi"] (Some "gpt-4") (VStr "cid")
      None None [("completion_id", VStr "mine")] 0 world0 = (Ok [e], w') /\
    dict_get "completion_id" e <> Some (nr_span_id world0).
Proof.
  eexists. eexists. split; [vm_compute; reflexivity|].
  vm_compute. discriminate.
Qed.

(** C5, amended. Whatever completion id the caller passes, the
    completion_id field of every event the message builder returns is the
    current span id, provided the caller's tags do not themselves bind
    completion_id (tags are applied last and overwrite). *)
Theorem C5_completion_id_is_span_id messages model completion_id override
        response_id tags start w es w' e :
  build_messages_events messages model completion_id override response_id
                        tags start w = (Ok es, w') ->
  In e es ->
  dict_get "completion_id" tags = None ->
  dict_get "completion_id" e = Some (nr_span_id w).
Proof.
  intros H Hin Ht.
  apply build_messages_events_shape in H.
  destruct (Forall2_In_r _ _ _ _ H Hin)
    as (message & _ & i & content & w0 & _ & _ & ->).
  unfold message_event_of.
  rewrite dict_get_update_absent by assumption.
  vm_compute. reflexivity.
Qed.

Lemma C5_witness :
  dict_get "completion_id"
    (message_event_of (VStr "span-1") [] 0
       (with_response_model (VStr "gpt-4") world0) 0
       (user_message "hi") (VStr "hi"))
  = Some (VStr "span-1").
Proof.
  exact (C5_completion_id_is_span_id [user_message "hi"] (Some "gpt-4")
           (VStr "cid") None None [] 0 world0 _ _ _ eq_refl
           (or_introl eq_refl) eq_refl).
Defined.

(** ** Truncation of free text *)

(** C6 as stated fails: an error message longer than 4095 characters
    reaches the completion-error event whole. *)
Lemma C6_error_message_is_not_truncated :
  exists e w',
    build_completion_summary_for_error [("model", VStr "gpt-4")]
      (error0 long_text) (VStr "cid") false world0 = (Ok e, w') /\
    (max_chars < String.length long_text)%nat /\
    ~ field_truncates e "error_message" long_text.
Proof.
  eexists. eexists. split; [vm_compute; reflexivity|].
  split; [vm_compute; lia|].
  intros (t & Hget & Hlong & _).
  vm_compute in Hget. injection Hget as <-.
  destruct Hlong as [Hlen _]; [vm_compute; lia|].
  vm_compute in Hlen. discriminate.
Qed.

Lemma field_truncates_intro e k s :
  dict_get k e = Some (VStr (str_take max_chars s)) -> field_truncates e k s.
Proof.
  intros H. exists (str_take max_chars s). split; [exact H|].
  apply kept_text_take.
Qed.

(** C6, amended. Message content (unless the caller's tags rebind
    content), the final response text of the completion-summary and
    streaming-completion builders, and the embedding input are cut to
    exactly 4095 characters when longer and left unchanged when 4095
    characters or shorter; the error message of the two error builders and
    the feedback message are copied into the event unchanged, whatever
    their length. *)
Theorem C6_free_text_fields :
  (forall messages model completion_id override response_id tags start
          w es w',
     build_messages_events messages model completion_id override response_id
                           tags start w = (Ok es, w') ->
     dict_get "content" tags = None ->
     Forall2 (fun message e =>
                forall s, get message "content" = VStr s ->
                          field_truncates e "content" s)
             messages es) /\
  (forall response request hs response_time final_message completion_id
          w e w' s,
     build_completion_summary response request hs response_time final_message
                              completion_id w = (Ok e, w') ->
     get final_message "content" = VStr s ->
     field_truncates e "response" s) /\
  (forall tk last_chunk request hs message response_time completion_id
          w e w' s,
     build_stream_completion_events tk last_chunk request hs message
                                    response_time completion_id w
     = (Ok e, w') ->
     get message "content" = VStr s ->
     field_truncates e "response" s) /\
  (forall response request hs response_time w e w' s,
     build_embedding_event response request hs response_time w = (Ok e, w') ->
     get request "input" = VStr s ->
     field_truncates e "input" s) /\
  (forall request error completion_id isStream w e w',
     build_completion_summary_for_error request error completion_id isStream w
     = (Ok e, w') ->
     dict_get "error_message" e = Some (err_message (err_error error))) /\
  (forall request error w e w',
     build_embedding_error_event request error w = (Ok e, w') ->
     dict_get "error_message" e = Some (err_message (err_error error))) /\
  (forall category rating message_id conversation_id request_id message
          w e w',
     build_ai_feedback_event category rating message_id conversation_id
                             request_id message w = (Ok e, w') ->
     dict_get "message" e = Some message).
Proof.
  repeat apply conj.
  - intros * H Ht.
    apply build_messages_events_shape in H.
    eapply Forall2_impl; [|exact H].
    intros message e (i & content & w0 & _ & Hcut & ->) s Hs.
    rewrite (kept_content _ _ Hs) in Hcut. inversion Hcut; subst content.
    apply field_truncates_intro. unfold message_event_of.
    rewrite dict_get_update_absent by assumption.
    rewrite dict_get_of, last_binding_app. reflexivity.
  - intros * H Hs. unfold build_completion_summary in H.
    rewrite (kept_content _ _ Hs) in H. steps H. shape H.
    apply field_truncates_intro.
    rewrite dict_get_update, !dict_get_of. reflexivity.
  - intros * H Hs. unfold build_stream_completion_events in H.
    rewrite (kept_content _ _ Hs) in H. steps H. shape H.
    apply field_truncates_intro.
    rewrite dict_get_update, !dict_get_of. reflexivity.
  - intros * H Hs. unfold build_embedding_event in H.
    rewrite Hs in H. cbn [slice_to] in H. steps H. shape H.
    apply field_truncates_intro.
    rewrite dict_get_update, !dict_get_of. reflexivity.
  - intros * H. unfold build_completion_summary_for_error in H.
    steps H. shape H. vm_compute. reflexivity.
  - intros * H. unfold build_embedding_error_event in H.
    steps H. shape H. vm_compute. reflexivity.
  - intros * H. unfold build_ai_feedback_event in H.
    steps H. shape H. vm_compute. reflexivity.
Qed.

Lemma C6_witness :
  exists e w',
    build_completion_summary response0 [("model", VStr "gpt-4")] []
      0.25%float (user_message "hello") (VStr "cid") world0 = (Ok e, w') /\
    field_truncates e "response" "hello".
Proof.
  eexists. eexists. split; [vm_compute; reflexivity|].
  eapply (proj1 (proj2 C6_free_text_fields) response0 [("model", VStr "gpt-4")]
            [] 0.25%float (user_message "hello") (VStr "cid") world0);
    reflexivity.
Defined.

(** ** Repeated calls *)

(** Settle the entries of two dict displays that list the same keys. *)
Ltac fields :=
  repeat (apply Forall2_cons;
          [ split;
            [ reflexivity
            | let Hk := fresh "Hk" in
              intros Hk;
              first [ reflexivity | exfalso; apply Hk; cbn; tauto ] ]
          | ]);
  apply Forall2_nil.

(** Read two worlds field by field and identify what they share. *)
Ltac share w1 w2 H :=
  destruct w1 as [us1 ud1 wc1 sp1 tr1 tx1 cv1 rm1 key1];
  destruct w2 as [us2 ud2 wc2 sp2 tr2 tx2 cv2 rm2 key2];
  unfold same_ambient in H; cbn in H;
  destruct H as (-> & -> & -> & -> & -> & ->).

Lemma message_event_of_agree completion_id tags start w1 w2 i message content :
  same_ambient w1 w2 ->
  agree_except ["id"]
    (message_event_of completion_id tags start w1 i message content)
    (message_event_of completion_id tags start w2 i message content).
Proof.
  intros H. share w1 w2 H. unfold message_event_of.
  apply agree_except_update, agree_except_of.
  cbn -[get]. fields.
Qed.

Lemma message_events_agree completion_id override response_id tags start :
  forall messages index w1 w2,
    same_ambient w1 w2 ->
    results_agree ["id"]
      (fst (message_events completion_id override response_id tags start
                           index messages w1))
      (fst (message_events completion_id override response_id tags start
                           index messages w2)).
Proof.
  induction messages as [|message rest IH]; intros index w1 w2 H.
  - constructor.
  - cbn [message_events]. unfold bind. rewrite !message_event_run.
    destruct (slice_to max_chars (or_ (get message "content") (VStr "")))
      as [content|x]; [|reflexivity].
    assert (H2 : same_ambient (drawn 2 w1) (drawn 2 w2)).
    { eapply same_ambient_trans;
        [apply same_ambient_sym, same_ambient_drawn|].
      eapply same_ambient_trans; [exact H | apply same_ambient_drawn]. }
    specialize (IH (S index) _ _ H2).
    destruct (message_events completion_id override response_id tags start
                (S index) rest (drawn 2 w1)) as [[es1|x1] w1'];
      destruct (message_events completion_id override response_id tags start
                  (S index) rest (drawn 2 w2)) as [[es2|x2] w2'];
      cbn in *; try contradiction; try assumption.
    constructor; [|assumption].
    now apply message_event_of_agree.
Qed.

Lemma message_events_ambient completion_id override response_id tags start :
  forall messages index w,
    same_ambient w
      (snd (message_events completion_id override response_id tags start
                           index messages w)).
Proof.
  induction messages as [|message rest IH]; intros index w.
  - apply same_ambient_refl.
  - cbn [message_events]. unfold bind. rewrite message_event_run.
    destruct (slice_to max_chars (or_ (get message "content") (VStr "")))
      as [content|x]; [|apply (same_ambient_drawn 2)].
    specialize (IH (S index) (drawn 2 w)).
    destruct (message_events completion_id override response_id tags start
                (S index) rest (drawn 2 w)) as [[es|x] w1]; cbn in *;
      (eapply same_ambient_trans; [apply (same_ambient_drawn 2)|exact IH]).
Qed.

(** The world in which the message loop runs. *)
Lemma build_messages_events_loop messages model completion_id override
      response_id tags start w :
  build_messages_events messages model completion_id override response_id
                        tags start w =
  let w0 := match model with
            | Some m => with_response_model (VStr m) w
            | None => w
            end in
  message_events (nr_span_id w) override response_id tags start 0 messages w0.
Proof. destruct model; reflexivity. Qed.

Ltac unfold_builders :=
  unfold run, one, build_stream_completion_events, build_completion_summary,
    build_completion_summary_for_error, build_embedding_event,
    build_embedding_error_event, build_ai_feedback_event,
    bind, lift, ret, uuid4, datetime_now, get_conversation_id,
    read_openai_api_key, get_trace_details, current_span_id,
    current_trace_id, current_transaction, drawn.

Ltac reduce_steps :=
  cbn -[dict_of dict_update slice_to or_ get get_default len first_choice
        api_key_last_four_digits response_time_ms _get_rate_limit_data
        calc_prompt_tokens calc_completion_tokens total_tokens_of count_value
        request_model header_value].

(** Follow two runs of the same builder through the steps that can raise. *)
Ltac lockstep :=
  repeat match goal with
         | |- context [match ?x with Ok _ => _ | Raise _ => _ end] =>
             destruct x; reduce_steps
         end.

Ltac agree_events :=
  apply Forall2_cons;
  [ first [ apply agree_except_of
          | apply agree_except_update; apply agree_except_of ];
    cbn -[get]; fields
  | apply Forall2_nil ].

(** Two calls with the same arguments, in worlds that read the same. *)
Lemma run_agree tk c w1 w2 :
  same_ambient w1 w2 ->
  results_agree (stamped_fields c) (fst (run tk c w1)) (fst (run tk c w2)).
Proof.
  intros H. destruct c.
  - cbn [run stamped_fields]. rewrite !build_messages_events_loop.
    assert (Hs : nr_span_id w1 = nr_span_id w2) by apply H.
    rewrite Hs. cbv zeta.
    apply message_events_agree.
    destruct model; [|exact H].
    share w1 w2 H. repeat split.
  - share w1 w2 H. unfold_builders. reduce_steps.
    lockstep; try reflexivity. agree_events.
  - share w1 w2 H. unfold_builders. reduce_steps.
    lockstep; try reflexivity. agree_events.
  - share w1 w2 H. unfold_builders. reduce_steps.
    lockstep; try reflexivity. agree_events.
  - share w1 w2 H. unfold_builders. reduce_steps.
    lockstep; try reflexivity. agree_events.
  - share w1 w2 H. unfold_builders. reduce_steps.
    lockstep; try reflexivity. agree_events.
  - share w1 w2 H. unfold_builders. reduce_steps.
    lockstep; try reflexivity. agree_events.
Qed.

(** What a call leaves behind: the uuid source has moved on and, when the
    message builder is given a model, the response model variable holds it;
    nothing else the builders read has changed. *)
Lemma run_ambient tk c w :
  same_ambient
    match c with
    | CallMessages _ (Some m) _ _ _ _ _ => with_response_model (VStr m) w
    | _ => w
    end
    (snd (run tk c w)).
Proof.
  destruct c.
  - cbn [run]. rewrite build_messages_events_loop. cbv zeta.
    destruct model; apply message_events_ambient.
  - destruct w. unfold_builders. reduce_steps. lockstep; repeat split.
  - destruct w. unfold_builders. reduce_steps. lockstep; repeat split.
  - destruct w. unfold_builders. reduce_steps. lockstep; repeat split.
  - destruct w. unfold_builders. reduce_steps. lockstep; repeat split.
  - destruct w. unfold_builders. reduce_steps. lockstep; repeat split.
  - destruct w. unfold_builders. reduce_steps. lockstep; repeat split.
Qed.




Lemma repeated_call_agrees tk c w w2 :
  same_ambient (snd (run tk c w)) w2 ->
  results_agree (stamped_fields c) (fst (run tk c w)) (fst (run tk c w2)).
Proof.
  intros H. pose proof (run_ambient tk c w) as Ha.
  assert (Hw : same_ambient
                 match c with
                 | CallMessages _ (Some m) _ _ _ _ _ =>
                     with_response_model (VStr m) w
                 | _ => w
                 end w2)
    by (eapply same_ambient_trans; eassumption).
  clear H Ha.
  destruct c; try (now apply run_agree).
  destruct model as [m|]; [|now apply run_agree].
  cbn [run stamped_fields]. rewrite !build_messages_events_loop. cbv zeta.
  destruct Hw as (Hs & Ht & Hx & Hc & Hm & Hk). cbn in Hs, Ht, Hx, Hc, Hk.
  rewrite Hs. apply message_events_agree.
  repeat split; assumption.
Qed.



(** Two completion summaries built from the same arguments a second apart
    are the same in every field. *)
Lemma completion_summaries_repeat_exactly :
  results_agree []
    (fst (run char_tokenizer
            (CallCompletionSummary response0 [("model", VStr "gpt-4")] []
               0.25%float (user_message "hello") (VStr "cid"))
            world0))
    (fst (run char_tokenizer
            (CallCompletionSummary response0 [("model", VStr "gpt-4")] []
               0.25%float (user_message "hello") (VStr "cid"))
            world1)).
Proof.
  apply (repeated_call_agrees char_tokenizer
           (CallCompletionSummary response0 [("model", VStr "gpt-4")] []
              0.25%float (user_message "hello") (VStr "cid"))
           world0 world1).
  repeat split.
Qed.

(** ** Usage fields of the streaming builder *)

(** The three usage fields of a streaming-completion event are the two
    counts and [total_tokens_of] them. *)
Lemma stream_usage_fields tk last_chunk request hs message response_time
      completion_id w e w' :
  build_stream_completion_events tk last_chunk request hs message
                                 response_time completion_id w = (Ok e, w') ->
  exists prompt completion,
    calc_prompt_tokens tk (resp_model last_chunk)
      (get_default request "messages" (VList [])) = Ok prompt /\
    calc_completion_tokens tk (resp_model last_chunk)
      (get_default message "content" (VStr "")) = Ok completion /\
    dict_get "usage.prompt_tokens" e = Some (count_value prompt) /\
    dict_get "usage.completion_tokens" e = Some (count_value completion) /\
    dict_get "usage.total_tokens" e
    = Some (count_value (total_tokens_of completion prompt)).
Proof.
  intros H. unfold build_stream_completion_events in H. steps H. shape H.
  eexists. eexists. split; [reflexivity|]. split; [reflexivity|].
  rewrite !dict_get_update, !dict_get_of. repeat split.
Qed.

(** With both counts defined and non-zero the total is their sum; with
    either undefined it is undefined. *)
Lemma stream_total_tokens tk last_chunk request hs message response_time
      completion_id w e w' :
  build_stream_completion_events tk last_chunk request hs message
                                 response_time completion_id w = (Ok e, w') ->
  (forall p c,
     dict_get "usage.prompt_tokens" e = Some (VInt p) ->
     dict_get "usage.completion_tokens" e = Some (VInt c) ->
     p <> 0 -> c <> 0 ->
     dict_get "usage.total_tokens" e = Some (VInt (c + p))) /\
  (dict_get "usage.prompt_tokens" e = Some VNone \/
   dict_get "usage.completion_tokens" e = Some VNone ->
   dict_get "usage.total_tokens" e = Some VNone).
Proof.
  intros H.
  destruct (stream_usage_fields _ _ _ _ _ _ _ _ _ _ H)
    as (prompt & completion & _ & _ & Hp & Hc & Ht).
  rewrite Hp, Hc, Ht. split.
  - intros p c Ep Ec Hp0 Hc0.
    destruct prompt as [p'|]; [|discriminate].
    destruct completion as [c'|]; [|discriminate].
    cbn in Ep, Ec. inversion Ep; inversion Ec; subst.
    now rewrite total_tokens_of_both.
  - intros [E|E].
    + destruct prompt; [discriminate|].
      now rewrite total_tokens_of_undefined by now right.
    + destruct completion; [discriminate|].
      now rewrite total_tokens_of_undefined by now left.
Qed.

(** C2. Whenever the completion count is 0 (as for a streamed message with
    empty content) and the prompt count is defined, the streaming builder
    reports both counts and leaves usage.total_tokens None, where the claim
    has their sum: the test for "both defined" is a truth test, and 0 is
    false. *)
Theorem C2_zero_completion_count_loses_total tk last_chunk request hs message
        response_time completion_id w e w' p :
  build_stream_completion_events tk last_chunk request hs message
                                 response_time completion_id w = (Ok e, w') ->
  calc_prompt_tokens tk (resp_model last_chunk)
    (get_default request "messages" (VList [])) = Ok (Some p) ->
  calc_completion_tokens tk (resp_model last_chunk)
    (get_default message "content" (VStr "")) = Ok (Some 0) ->
  dict_get "usage.prompt_tokens" e = Some (VInt p) /\
  dict_get "usage.completion_tokens" e = Some (VInt 0) /\
  dict_get "usage.total_tokens" e = Some VNone.
Proof.
  intros H Hp Hc.
  destruct (stream_usage_fields _ _ _ _ _ _ _ _ _ _ H)
    as (prompt & completion & Hp' & Hc' & Fp & Fc & Ft).
  rewrite Hp in Hp'. rewrite Hc in Hc'.
  inversion Hp'; inversion Hc'; subst.
  rewrite Fp, Fc, Ft. repeat split.
Qed.

Lemma C2_witness :
  exists e w',
    build_stream_completion_events char_tokenizer response0
      [("model", VStr "gpt-3.5-turbo");
       ("messages", VList [VDict (user_message "hi")])] []
      [("role", VStr "assistant"); ("content", VStr "")]
      0.25%float (VStr "cid") world0 = (Ok e, w') /\
    dict_get "usage.prompt_tokens" e = Some (VInt 12) /\
    dict_get "usage.completion_tokens" e = Some (VInt 0) /\
    dict_get "usage.total_tokens" e = Some VNone.
Proof.
  eexists. eexists. split; [vm_compute; reflexivity|].
  eapply (C2_zero_completion_count_loses_total char_tokenizer response0
            [("model", VStr "gpt-3.5-turbo");
             ("messages", VList [VDict (user_message "hi")])] []
            [("role", VStr "assistant"); ("content", VStr "")]
            0.25%float (VStr "cid") world0);
    vm_compute; reflexivity.
Defined.

(* ================================================================== *)
(** * Further properties of the builders *)

(** ** Rate-limit record *)

Lemma decimal_value_of_uint d : forall a,
  decimal_value (Z.of_nat a) (NilEmpty.string_of_uint d)
  = Z.of_nat (Nat.of_uint_acc d a).
Proof.
  induction d; intros a; cbn [NilEmpty.string_of_uint decimal_value Nat.of_uint_acc];
    try reflexivity;
    rewrite <- IHd; f_equal; rewrite Nat.tail_mul_spec;
    match goal with
    | |- context [Z.of_nat (nat_of_ascii ?c)] =>
        let v := eval vm_compute in (Z.of_nat (nat_of_ascii c)) in
        change (Z.of_nat (nat_of_ascii c)) with v
    end; lia.
Qed.

Lemma all_decimal_of_uint d :
  all_chars is_decimal_char (NilEmpty.string_of_uint d) = true.
Proof. induction d; cbn; auto. Qed.

Lemma to_uint_not_nil n : Nat.to_uint n <> Decimal.Nil.
Proof.
  intros H.
  pose proof (DecimalNat.Unsigned.to_of (Nat.to_uint n)) as E.
  rewrite DecimalNat.Unsigned.of_to, H in E. discriminate E.
Qed.

Lemma str_of_nat_not_empty n : str_of_nat n <> "".
Proof.
  unfold str_of_nat. pose proof (to_uint_not_nil n) as H.
  destruct (Nat.to_uint n); [contradiction| | | | | | | | | |]; discriminate.
Qed.

Lemma all_decimal_is_digit s :
  all_chars is_decimal_char s = true -> all_chars is_digit_char s = true.
Proof.
  induction s as [|c s IH]; cbn [all_chars]; [reflexivity|].
  intros H. apply andb_prop in H as [Hc Hs].
  rewrite (IH Hs). unfold is_digit_char. rewrite Hc. reflexivity.
Qed.

(** X1. Reading back a printed number: a numeric rate-limit header whose
    text is the decimal rendering of a natural number n, of no more digits
    than the interpreter's int converts (4300), is extracted as the
    integer n. *)
Theorem numeric_header_reads_back_str h name n :
  header_get name h = Some (str_of_nat n) ->
  (String.length (str_of_nat n) <= int_max_str_digits)%nat ->
  _get_numeric_header h name = Ok (VInt (Z.of_nat n)).
Proof.
  intros Hget Hlen. unfold _get_numeric_header. rewrite Hget.
  pose proof (str_of_nat_not_empty n) as Hne.
  pose proof (all_decimal_of_uint (Nat.to_uint n)) as Hdec.
  fold (str_of_nat n) in Hdec.
  unfold isdigit, int_of_str.
  rewrite (all_decimal_is_digit _ Hdec), Hdec.
  apply Nat.leb_le in Hlen. rewrite Hlen.
  destruct (String.eqb_spec (str_of_nat n) ""); [contradiction|].
  cbn [negb andb res_bind]. do 2 f_equal.
  unfold str_of_nat.
  change (decimal_value 0) with (decimal_value (Z.of_nat 0)).
  rewrite (decimal_value_of_uint (Nat.to_uint n) 0).
  f_equal. apply DecimalNat.Unsigned.of_to.
Qed.

Lemma numeric_header_reads_back_str_witness :
  _get_numeric_header [("ratelimit_limit_tokens", "500")]
                      "ratelimit_limit_tokens" = Ok (VInt 500).
Proof.
  apply (numeric_header_reads_back_str
           [("ratelimit_limit_tokens", "500")] "ratelimit_limit_tokens" 500).
  - reflexivity.
  - vm_compute. lia.
Defined.

(** A digit run longer than [int] converts is refused: the guard lets it
    through and the conversion raises. *)
Lemma numeric_header_over_digit_limit h name s :
  header_get name h = Some s ->
  all_chars is_decimal_char s = true ->
  (int_max_str_digits < String.length s)%nat ->
  _get_numeric_header h name = Raise ValueError.
Proof.
  intros Hget Hall Hlen. unfold _get_numeric_header. rewrite Hget.
  assert (Hne : s <> "").
  { intros ->. cbn in Hlen. lia. }
  unfold isdigit, int_of_str.
  rewrite (all_decimal_is_digit _ Hall), Hall.
  destruct (String.eqb_spec s ""); [contradiction|].
  cbn [negb andb].
  apply Nat.leb_gt in Hlen. rewrite Hlen. reflexivity.
Qed.

(** X2. Headers that lack the four names the numeric fields are read from
    (whatever else they hold, names with an x- prefix included) give
    a record, not an exception, whose four numeric fields are None and
    whose two reset fields are the texts of the two x-ratelimit-reset
    headers. *)
Theorem rate_limit_without_numeric_headers h :
  (forall name, In name numeric_header_names -> header_get name h = None) ->
  exists d,
    _get_rate_limit_data h = Ok d /\
    (forall name, In name numeric_header_names -> dict_get name d = Some VNone) /\
    dict_get "ratelimit_reset_tokens" d
    = Some (header_value "x-ratelimit-reset-tokens" h) /\
    dict_get "ratelimit_reset_requests" d
    = Some (header_value "x-ratelimit-reset-requests" h).
Proof.
  intros H. unfold _get_rate_limit_data, _get_numeric_header.
  rewrite !H by (cbn; tauto). cbn [res_bind].
  eexists. split; [reflexivity|]. split; [|split; reflexivity].
  intros name [<-|[<-|[<-|[<-|[]]]]]; reflexivity.
Qed.

Lemma rate_limit_without_numeric_headers_witness :
  exists d,
    _get_rate_limit_data [("x-ratelimit-limit-requests", "3500");
                          ("x-ratelimit-reset-tokens", "6ms")] = Ok d /\
    dict_get "ratelimit_limit_requests" d = Some VNone /\
    dict_get "ratelimit_reset_tokens" d = Some (VStr "6ms").
Proof.
  destruct (rate_limit_without_numeric_headers
              [("x-ratelimit-limit-requests", "3500");
               ("x-ratelimit-reset-tokens", "6ms")])
    as (d & Hd & Hnum & Hreset & _).
  - intros name [<-|[<-|[<-|[<-|[]]]]]; reflexivity.
  - exists d. split; [exact Hd|]. split; [|exact Hreset].
    apply Hnum. now left.
Defined.

(** X3. Whenever the extractor returns, its record has exactly the six
    rate-limit fields, in the order of the source. *)
Theorem rate_limit_record_has_six_fields h d :
  _get_rate_limit_data h = Ok d -> map fst d = rate_limit_fields.
Proof.
  intros H. apply rate_limit_data_shape in H as (a & b & c & e & ->).
  reflexivity.
Qed.

Lemma rate_limit_record_has_six_fields_witness :
  map fst
    [("ratelimit_limit_requests", VInt 100); ("ratelimit_limit_tokens", VNone);
     ("ratelimit_reset_tokens", VNone); ("ratelimit_reset_requests", VNone);
     ("ratelimit_remaining_tokens", VNone);
     ("ratelimit_remaining_requests", VNone)]
  = rate_limit_fields.
Proof.
  exact (rate_limit_record_has_six_fields
           [("ratelimit_limit_requests", "100")] _ eq_refl).
Defined.

(** X4. The completion-summary, streaming-completion and embedding events
    carry the six rate-limit fields exactly as the extractor returns them;
    the events of the other four builders have none of them (for the
    message builder: unless the caller's tags bind one). *)
Theorem events_rate_limit_fields tk c w es w' e k :
  run tk c w = (Ok es, w') ->
  In e es ->
  In k rate_limit_fields ->
  dict_get k (call_tags c) = None ->
  match call_headers c with
  | Some hs =>
      exists d, _get_rate_limit_data hs = Ok d /\ dict_get k e = dict_get k d
  | None => dict_get k e = None
  end.
Proof.
  intros H Hin Hk Ht.
  destruct c; cbn [run call_tags call_headers] in *.
  - apply build_messages_events_shape in H.
    destruct (Forall2_In_r _ _ _ _ H Hin)
      as (message & _ & i & content & w0 & _ & _ & ->).
    unfold message_event_of. rewrite dict_get_update_absent by assumption.
    destruct Hk as [<-|[<-|[<-|[<-|[<-|[<-|[]]]]]]]; vm_compute; reflexivity.
  - unfold build_stream_completion_events in H. steps H. peel H.
    inversion H; subst; clear H. destruct Hin as [<-|[]].
    eexists. split; [reflexivity|].
    match goal with
    | E : _get_rate_limit_data _ = Ok _ |- _ =>
        apply rate_limit_data_shape in E as (? & ? & ? & ? & ->)
    end.
    rewrite dict_get_update.
    destruct Hk as [<-|[<-|[<-|[<-|[<-|[<-|[]]]]]]]; reflexivity.
  - unfold build_completion_summary in H. steps H. peel H.
    inversion H; subst; clear H. destruct Hin as [<-|[]].
    eexists. split; [reflexivity|].
    match goal with
    | E : _get_rate_limit_data _ = Ok _ |- _ =>
        apply rate_limit_data_shape in E as (? & ? & ? & ? & ->)
    end.
    rewrite dict_get_update.
    destruct Hk as [<-|[<-|[<-|[<-|[<-|[<-|[]]]]]]]; reflexivity.
  - unfold build_completion_summary_for_error in H. steps H. shape H.
    destruct Hin as [<-|[]].
    destruct Hk as [<-|[<-|[<-|[<-|[<-|[<-|[]]]]]]]; vm_compute; reflexivity.
  - unfold build_embedding_event in H. steps H. peel H.
    inversion H; subst; clear H. destruct Hin as [<-|[]].
    eexists. split; [reflexivity|].
    match goal with
    | E : _get_rate_limit_data _ = Ok _ |- _ =>
        apply rate_limit_data_shape in E as (? & ? & ? & ? & ->)
    end.
    rewrite dict_get_update.
    destruct Hk as [<-|[<-|[<-|[<-|[<-|[<-|[]]]]]]]; reflexivity.
  - unfold build_embedding_error_event in H. steps H. shape H.
    destruct Hin as [<-|[]].
    destruct Hk as [<-|[<-|[<-|[<-|[<-|[<-|[]]]]]]]; vm_compute; reflexivity.
  - unfold build_ai_feedback_event in H. steps H. shape H.
    destruct Hin as [<-|[]].
    destruct Hk as [<-|[<-|[<-|[<-|[<-|[<-|[]]]]]]]; vm_compute; reflexivity.
Qed.

Lemma events_rate_limit_fields_witness :
  exists e d,
    _get_rate_limit_data [("ratelimit_limit_requests", "100")] = Ok d /\
    dict_get "ratelimit_limit_requests" e
    = dict_get "ratelimit_limit_requests" d.
Proof.
  eexists.
  refine (events_rate_limit_fields char_tokenizer
            (CallCompletionSummary response0 [("model", VStr "gpt-4")]
               [("ratelimit_limit_requests", "100")] 0.25%float
               (user_message "hello") (VStr "cid"))
            world0 _ _ _ "ratelimit_limit_requests"
            eq_refl (or_introl eq_refl) (or_introl eq_refl) eq_refl).
Defined.

(** X5. A rate-limit header the extractor cannot read costs the whole
    event: when the extractor raises on the headers, the completion-summary,
    streaming-completion and embedding builders raise too and return
    nothing. *)
Theorem unreadable_rate_limit_header_loses_event tk c hs x w :
  call_headers c = Some hs ->
  _get_rate_limit_data hs = Raise x ->
  exists x', fst (run tk c w) = Raise x'.
Proof.
  intros Hc Hx.
  destruct c; cbn [call_headers] in Hc; try discriminate Hc;
    inversion Hc; subst; destruct w;
    unfold_builders; rewrite Hx; reduce_steps; lockstep;
    eexists; reflexivity.
Qed.

Lemma unreadable_rate_limit_header_loses_event_witness :
  exists x',
    fst (run char_tokenizer
           (CallCompletionSummary response0 [("model", VStr "gpt-4")]
              [("ratelimit_limit_requests", superscript_two)] 0.25%float
              (user_message "hello") (VStr "cid"))
           world0) = Raise x'.
Proof.
  exact (unreadable_rate_limit_header_loses_event char_tokenizer
           (CallCompletionSummary response0 [("model", VStr "gpt-4")]
              [("ratelimit_limit_requests", superscript_two)] 0.25%float
              (user_message "hello") (VStr "cid"))
           _ ValueError world0 eq_refl eq_refl).
Defined.

(** ** The message loop, event by event *)

Lemma drawn_drawn a b w : drawn a (drawn b w) = drawn (a + b) w.
Proof. destruct w. unfold drawn. cbn. f_equal. lia. Qed.

Lemma drawn_0 w : drawn 0 w = w.
Proof. destruct w. reflexivity. Qed.

(** The i-th event is built from the i-th message, in the world where the
    2 i uuids of the earlier turns have been drawn; a returning loop has
    drawn two uuids per message. *)
Lemma message_events_indexed completion_id override response_id tags start :
  forall messages index w es w',
    message_events completion_id override response_id tags start
                   index messages w = (Ok es, w') ->
    w' = drawn (2 * List.length messages) w /\
    List.length es = List.length messages /\
    forall i message,
      nth_error messages i = Some message ->
      exists content,
        slice_to max_chars (or_ (get message "content") (VStr "")) = Ok content /\
        nth_error es i
        = Some (message_event_of completion_id tags start (drawn (2 * i) w)
                  (index + i) message content).
Proof.
  induction messages as [|message rest IH]; intros index w es w' H.
  - inversion H; subst. split; [now rewrite drawn_0|]. split; [reflexivity|].
    intros [|i] m Hm; discriminate Hm.
  - cbn [message_events] in H. unfold bind in H.
    rewrite message_event_run in H.
    destruct (slice_to max_chars (or_ (get message "content") (VStr "")))
      as [content|x] eqn:Hcut; [|discriminate].
    destruct (message_events completion_id override response_id tags start
                (S index) rest (drawn 2 w)) as [[es'|x] w1] eqn:Hrest;
      [|discriminate].
    inversion H; subst; clear H.
    destruct (IH _ _ _ _ Hrest) as (Hw & Hlen & Hnth).
    split; [|split].
    + rewrite Hw, drawn_drawn. f_equal. cbn [List.length]. lia.
    + cbn [List.length]. now rewrite Hlen.
    + intros [|i] m Hm.
      * inversion Hm; subst. exists content. split; [assumption|].
        cbn [nth_error]. now rewrite drawn_0, Nat.add_0_r.
      * cbn [nth_error] in Hm |- *.
        destruct (Hnth i m Hm) as (c & Hc & He).
        exists c. split; [assumption|].
        rewrite He, drawn_drawn. do 2 f_equal.
        -- f_equal. lia.
        -- lia.
Qed.

Lemma build_messages_events_indexed messages model completion_id override
      response_id tags start w es w' :
  build_messages_events messages model completion_id override response_id
                        tags start w = (Ok es, w') ->
  w' = drawn (2 * List.length messages) (loop_world model w) /\
  List.length es = List.length messages /\
  forall i message,
    nth_error messages i = Some message ->
    exists content,
      slice_to max_chars (or_ (get message "content") (VStr "")) = Ok content /\
      nth_error es i
      = Some (message_event_of (nr_span_id w) tags start
                (drawn (2 * i) (loop_world model w)) i message content).
Proof.
  rewrite build_messages_events_loop. cbv zeta. fold (loop_world model w).
  intros H. apply message_events_indexed in H. exact H.
Qed.

Lemma nth_error_same_length {A B} (l1 : list A) (l2 : list B) i y :
  List.length l2 = List.length l1 ->
  nth_error l2 i = Some y -> exists x, nth_error l1 i = Some x.
Proof.
  intros Hlen Hy.
  assert (Hi : (i < List.length l1)%nat).
  { rewrite <- Hlen. apply nth_error_Some. congruence. }
  destruct (nth_error l1 i) as [x|] eqn:E; [now exists x|].
  apply nth_error_None in E. lia.
Qed.

(** X6. A returning call of the message builder gives one event per
    message, in order: the i-th event has sequence i + start_seq_num and
    the role of the i-th message (unless the caller's tags bind sequence or
    role). *)
Theorem message_events_are_numbered messages model completion_id override
        response_id tags start w es w' :
  build_messages_events messages model completion_id override response_id
                        tags start w = (Ok es, w') ->
  dict_get "sequence" tags = None ->
  dict_get "role" tags = None ->
  List.length es = List.length messages /\
  forall i e,
    nth_error es i = Some e ->
    dict_get "sequence" e = Some (VInt (Z.of_nat i + start)) /\
    exists message,
      nth_error messages i = Some message /\
      dict_get "role" e = Some (get message "role").
Proof.
  intros H Hseq Hrole.
  apply build_messages_events_indexed in H as (_ & Hlen & Hnth).
  split; [exact Hlen|].
  intros i e He.
  destruct (nth_error_same_length messages es i e Hlen He) as (message & Hm).
  destruct (Hnth i message Hm) as (content & _ & He').
  rewrite He in He'. inversion He'; subst e; clear He'.
  unfold message_event_of. rewrite !dict_get_update_absent by assumption.
  split; [vm_compute; reflexivity|].
  exists message. split; [exact Hm|]. vm_compute. reflexivity.
Qed.

Lemma message_events_are_numbered_witness :
  exists e,
    dict_get "sequence" e = Some (VInt 11) /\
    exists message,
      nth_error [user_message "hi"; user_message "there"] 1 = Some message /\
      dict_get "role" e = Some (get message "role").
Proof.
  eexists.
  refine (proj2 (message_events_are_numbered
                   [user_message "hi"; user_message "there"] (Some "gpt-4")
                   (VStr "cid") None None [] 10 world0 _ _
                   eq_refl eq_refl eq_refl) 1%nat _ eq_refl).
Defined.

(** X7. The id of the i-th message event is the uuid drawn at position
    2 i + 1 after those already drawn (unless the caller's tags bind id);
    so with a uuid source that never repeats, the events of one call have
    pairwise different ids. *)
Theorem message_event_ids_are_distinct messages model completion_id override
        response_id tags start w es w' :
  build_messages_events messages model completion_id override response_id
                        tags start w = (Ok es, w') ->
  dict_get "id" tags = None ->
  (forall i e,
     nth_error es i = Some e ->
     dict_get "id" e = Some (VStr (uuid_source w (S (2 * i + uuid_drawn w))))) /\
  ((forall a b, uuid_source w a = uuid_source w b -> a = b) ->
   forall i j ei ej,
     nth_error es i = Some ei -> nth_error es j = Some ej -> i <> j ->
     dict_get "id" ei <> dict_get "id" ej).
Proof.
  intros H Hid.
  apply build_messages_events_indexed in H as (_ & Hlen & Hnth).
  assert (Hpos : forall i e,
    nth_error es i = Some e ->
    dict_get "id" e = Some (VStr (uuid_source w (S (2 * i + uuid_drawn w))))).
  { intros i e He.
    destruct (nth_error_same_length messages es i e Hlen He) as (message & Hm).
    destruct (Hnth i message Hm) as (content & _ & He').
    rewrite He in He'. inversion He'; subst e; clear He'.
    unfold message_event_of. rewrite dict_get_update_absent by assumption.
    rewrite dict_get_of.
    destruct model; destruct w; reflexivity. }
  split; [exact Hpos|].
  intros Hinj i j ei ej Hi Hj Hne E.
  rewrite (Hpos _ _ Hi), (Hpos _ _ Hj) in E.
  inversion E as [E']. apply Hinj in E'. lia.
Qed.

Lemma world0_uuid_source_injective a b :
  uuid_source world0 a = uuid_source world0 b -> a = b.
Proof.
  cbn [uuid_source world0]. intros H. inversion H as [E].
  unfold str_of_nat in E.
  apply (f_equal NilEmpty.uint_of_string) in E.
  rewrite !NilEmpty.usu in E. inversion E as [E'].
  now apply DecimalNat.Unsigned.to_uint_inj.
Qed.

Lemma message_event_ids_are_distinct_witness :
  exists ei ej,
    dict_get "id" ei = Some (VStr "uuid-1") /\
    dict_get "id" ej = Some (VStr "uuid-3") /\
    dict_get "id" ei <> dict_get "id" ej.
Proof.
  pose proof (message_event_ids_are_distinct
                [user_message "hi"; user_message "there"] (Some "gpt-4")
                (VStr "cid") None None [] 0 world0 _ _ eq_refl eq_refl)
    as [Hpos Hdist].
  eexists. eexists.
  split; [exact (Hpos 0%nat _ eq_refl)|].
  split; [exact (Hpos 1%nat _ eq_refl)|].
  apply (Hdist world0_uuid_source_injective 0%nat 1%nat); [reflexivity..|lia].
Defined.

(** X8. Given a model, the message builder overwrites the response-model
    call variable with it, whether or not the call then returns, and given
    none it leaves the variable alone; the model field of every returned
    event holds the variable's value after that (unless the caller's tags
    bind model). *)
Theorem message_events_model_variable messages model completion_id override
        response_id tags start w :
  let current :=
    match model with
    | Some m => VStr m
    | None => var_response_model w
    end in
  var_response_model
    (snd (build_messages_events messages model completion_id override
            response_id tags start w)) = current /\
  forall es w' e,
    build_messages_events messages model completion_id override response_id
                          tags start w = (Ok es, w') ->
    In e es ->
    dict_get "model" tags = None ->
    dict_get "model" e = Some current.
Proof.
  cbv zeta. split.
  - pose proof (run_ambient char_tokenizer
                  (CallMessages messages model completion_id override
                     response_id tags start) w) as (_ & _ & _ & _ & Hm & _).
    cbn [run] in Hm. rewrite <- Hm. destruct model; reflexivity.
  - intros es w' e H Hin Ht.
    apply build_messages_events_indexed in H as (_ & Hlen & Hnth).
    apply In_nth_error in Hin as (i & He).
    destruct (nth_error_same_length messages es i e Hlen He) as (message & Hm).
    destruct (Hnth i message Hm) as (content & _ & He').
    rewrite He in He'. inversion He'; subst e; clear He'.
    unfold message_event_of. rewrite dict_get_update_absent by assumption.
    rewrite dict_get_of. destruct model; destruct w; reflexivity.
Qed.

Lemma message_events_model_variable_witness :
  exists e, dict_get "model" e = Some (VStr "gpt-4").
Proof.
  eexists.
  refine (proj2 (message_events_model_variable
                   [user_message "hi"] (Some "gpt-4") (VStr "cid") None None
                   [] 0 world0) _ _ _ eq_refl (or_introl eq_refl) eq_refl).
Defined.

Lemma dict_get_absent_key k (d : dict) :
  ~ In k (map fst d) -> dict_get k d = None.
Proof.
  induction d as [|[k0 v0] d IH]; cbn; intros H; [reflexivity|].
  destruct (String.eqb_spec k k0) as [->|]; [tauto|].
  apply IH. tauto.
Qed.

(** In a dict, whose keys are distinct, the last binding of a key is its
    only one. *)
Lemma last_binding_distinct_keys k (d : dict) :
  NoDup (map fst d) -> last_binding k d = dict_get k d.
Proof.
  induction d as [|[k0 v0] d IH]; cbn; intros H; [reflexivity|].
  inversion H as [|? ? Hnotin Hrest]; subst.
  rewrite (IH Hrest).
  destruct (String.eqb_spec k k0) as [->|]; [|now destruct (dict_get k d)].
  now rewrite (dict_get_absent_key _ _ Hnotin).
Qed.

(** X9. Tags are applied last: every binding of the caller's tags appears
    in every message event, also where it replaces a field the builder
    filled itself. *)
Theorem message_events_carry_tags messages model completion_id override
        response_id tags start w es w' e k v :
  build_messages_events messages model completion_id override response_id
                        tags start w = (Ok es, w') ->
  In e es ->
  NoDup (map fst tags) ->
  dict_get k tags = Some v ->
  dict_get k e = Some v.
Proof.
  intros H Hin Hnd Hk.
  apply build_messages_events_shape in H.
  destruct (Forall2_In_r _ _ _ _ H Hin)
    as (message & _ & i & content & w0 & _ & _ & ->).
  unfold message_event_of.
  now rewrite dict_get_update, (last_binding_distinct_keys _ _ Hnd), Hk.
Qed.

Lemma message_events_carry_tags_witness :
  exists e,
    dict_get "vendor" e = Some (VStr "bedrock") /\
    dict_get "app" e = Some (VStr "helpdesk").
Proof.
  eexists. split.
  - refine (message_events_carry_tags [user_message "hi"] (Some "gpt-4")
              (VStr "cid") None None
              [("vendor", VStr "bedrock"); ("app", VStr "helpdesk")] 0 world0
              _ _ _ "vendor" _ eq_refl (or_introl eq_refl) _ eq_refl).
    repeat constructor; cbn; intuition discriminate.
  - reflexivity.
Defined.

Lemma slice_raises_TypeError n v x : slice_to n v = Raise x -> x = TypeError.
Proof. destruct v; cbn; intros H; inversion H; reflexivity. Qed.

Lemma message_events_raise_TypeError completion_id override response_id tags
      start :
  forall messages index w x w',
    message_events completion_id override response_id tags start
                   index messages w = (Raise x, w') ->
    x = TypeError.
Proof.
  induction messages as [|message rest IH]; intros index w x w' H.
  - discriminate H.
  - cbn [message_events] in H. unfold bind in H.
    rewrite message_event_run in H.
    destruct (slice_to max_chars (or_ (get message "content") (VStr "")))
      as [content|x0] eqn:Hcut.
    + destruct (message_events completion_id override response_id tags start
                  (S index) rest (drawn 2 w)) as [[es'|x1] w1] eqn:Hrest;
        [discriminate H|].
      inversion H; subst. eapply IH. exact Hrest.
    + inversion H; subst. eapply slice_raises_TypeError. exact Hcut.
Qed.

Lemma Forall2_In_l {A B} (R : A -> B -> Prop) l1 l2 x :
  Forall2 R l1 l2 -> In x l1 -> exists y, In y l2 /\ R x y.
Proof.
  induction 1 as [|a b l1 l2 Hab _ IH]; intros Hin; [contradiction|].
  destruct Hin as [->|Hin].
  - exists b. split; [now left | assumption].
  - destruct (IH Hin) as (y & Hy & HR). exists y. split; [now right | assumption].
Qed.

(** X10. All or nothing: if some message has a content that is true but
    can be neither cut nor replaced by the empty string (a non-zero number,
    True, a non-empty dict), the message builder raises TypeError and
    returns no event, also none for the messages before it. *)
Theorem message_events_all_or_nothing messages model completion_id override
        response_id tags start w message :
  In message messages ->
  truthy (get message "content") = true ->
  sliceable (get message "content") = false ->
  fst (build_messages_events messages model completion_id override
         response_id tags start w) = Raise TypeError.
Proof.
  intros Hin Htrue Hcut.
  destruct (build_messages_events messages model completion_id override
              response_id tags start w) as [[es|x] w'] eqn:H; cbn [fst].
  - exfalso. apply build_messages_events_shape in H.
    destruct (Forall2_In_l _ _ _ _ H Hin) as (e & _ & i & c & w0 & _ & Hc & _).
    unfold or_ in Hc. rewrite Htrue in Hc.
    destruct (get message "content"); cbn in Hcut, Hc; discriminate.
  - f_equal. rewrite build_messages_events_loop in H. cbv zeta in H.
    eapply message_events_raise_TypeError. exact H.
Qed.

Lemma message_events_all_or_nothing_witness :
  fst (build_messages_events
         [user_message "hi"; [("role", VStr "user"); ("content", VInt 7)]]
         (Some "gpt-4") (VStr "cid") None None [] 0 world0)
  = Raise TypeError.
Proof.
  exact (message_events_all_or_nothing
           [user_message "hi"; [("role", VStr "user"); ("content", VInt 7)]]
           (Some "gpt-4") (VStr "cid") None None [] 0 world0
           [("role", VStr "user"); ("content", VInt 7)]
           (or_intror (or_introl eq_refl)) eq_refl eq_refl).
Defined.

(** X11. When every message's content is a string, None or missing, the
    message builder returns, with as many events as messages. *)
Theorem message_events_return_for_text messages model completion_id override
        response_id tags start w :
  (forall message,
     In message messages ->
     get message "content" = VNone \/ exists s, get message "content" = VStr s) ->
  exists es w',
    build_messages_events messages model completion_id override response_id
                          tags start w = (Ok es, w') /\
    List.length es = List.length messages.
Proof.
  intros Htext.
  assert (Hloop : forall ms index w0,
    (forall message, In message ms ->
       get message "content" = VNone \/
       exists s, get message "content" = VStr s) ->
    exists es w',
      message_events (nr_span_id w) override response_id tags start
                     index ms w0 = (Ok es, w')).
  { induction ms as [|m ms IH]; intros index w0 Hms.
    - eexists. eexists. reflexivity.
    - cbn [message_events]. unfold bind. rewrite message_event_run.
      assert (Hcut : exists c,
        slice_to max_chars (or_ (get m "content") (VStr "")) = Ok c).
      { destruct (Hms m (or_introl eq_refl)) as [E|[s E]]; rewrite E;
          eexists; [reflexivity|].
        rewrite <- E. apply kept_content. exact E. }
      destruct Hcut as (c & ->).
      destruct (IH (S index) (drawn 2 w0)) as (es & w' & ->).
      + intros message Hm. apply Hms. now right.
      + eexists. eexists. reflexivity. }
  destruct (Hloop messages 0%nat (loop_world model w) Htext) as (es & w' & H).
  exists es, w'.
  assert (Hb : build_messages_events messages model completion_id override
                 response_id tags start w = (Ok es, w')).
  { rewrite build_messages_events_loop. exact H. }
  split; [exact Hb|].
  apply build_messages_events_indexed in Hb. apply Hb.
Qed.

Lemma message_events_return_for_text_witness :
  exists es w',
    build_messages_events [user_message "hi"; [("role", VStr "assistant")]]
      None (VStr "cid") None None [] 0 world0 = (Ok es, w') /\
    List.length es = 2%nat.
Proof.
  apply (message_events_return_for_text
           [user_message "hi"; [("role", VStr "assistant")]]
           None (VStr "cid") None None [] 0 world0).
  intros message [<-|[<-|[]]]; [right; exists "hi"|left]; reflexivity.
Defined.

(** ** API key, choices and message count *)

Lemma str_drop_length n : forall s,
  String.length (str_drop n s) = (String.length s - n)%nat.
Proof.
  induction n as [|n IH]; intros [|c s]; cbn; try reflexivity.
  apply IH.
Qed.

Lemma str_take_drop n : forall s, (str_take n s ++ str_drop n s)%string = s.
Proof.
  induction n as [|n IH]; intros [|c s]; cbn; try reflexivity.
  now rewrite IH.
Qed.

(** X12. What an event shows of the API key: the field
    api_key_last_four_digits of every event that has one is "sk-" followed
    by the last four characters of the key (the whole key when it is
    shorter), so never more than four characters of the key. *)
Theorem api_key_field_shows_last_four tk c w es w' e k :
  run tk c w = (Ok es, w') ->
  In e es ->
  call_api_key c w = Some k ->
  exists key hidden shown,
    k = Some key /\
    key = (hidden ++ shown)%string /\
    String.length shown = Nat.min 4 (String.length key) /\
    dict_get "api_key_last_four_digits" e = Some (VStr ("sk-" ++ shown)).
Proof.
  intros H Hin Hk.
  assert (Hsplit : forall key,
    key = (str_take (String.length key - 4) key ++ str_last 4 key)%string /\
    String.length (str_last 4 key) = Nat.min 4 (String.length key)).
  { intros key. unfold str_last. split.
    - now rewrite str_take_drop.
    - rewrite str_drop_length. lia. }
  destruct c; cbn [run call_api_key] in *; try discriminate Hk;
    inversion Hk; subst k; clear Hk.
  - unfold build_stream_completion_events in H. steps H. shape H.
    destruct Hin as [<-|[]].
    destruct (resp_api_key last_chunk) as [key|]; [|discriminate].
    match goal with E : api_key_last_four_digits _ = Ok _ |- _ =>
      inversion E; subst; clear E end.
    exists key, (str_take (String.length key - 4) key), (str_last 4 key).
    split; [reflexivity|]. split; [apply Hsplit|]. split; [apply Hsplit|].
    rewrite dict_get_update, !dict_get_of. reflexivity.
  - unfold build_completion_summary in H. steps H. shape H.
    destruct Hin as [<-|[]].
    destruct (resp_api_key response) as [key|]; [|discriminate].
    match goal with E : api_key_last_four_digits _ = Ok _ |- _ =>
      inversion E; subst; clear E end.
    exists key, (str_take (String.length key - 4) key), (str_last 4 key).
    split; [reflexivity|]. split; [apply Hsplit|]. split; [apply Hsplit|].
    rewrite dict_get_update, !dict_get_of. reflexivity.
  - unfold build_completion_summary_for_error in H. steps H. shape H.
    destruct Hin as [<-|[]].
    destruct (openai_api_key w') as [key|]; [|discriminate].
    match goal with E : api_key_last_four_digits _ = Ok _ |- _ =>
      inversion E; subst; clear E end.
    exists key, (str_take (String.length key - 4) key), (str_last 4 key).
    split; [reflexivity|]. split; [apply Hsplit|]. split; [apply Hsplit|].
    rewrite !dict_get_of. reflexivity.
  - unfold build_embedding_event in H. steps H. shape H.
    destruct Hin as [<-|[]].
    destruct (resp_api_key response) as [key|]; [|discriminate].
    match goal with E : api_key_last_four_digits _ = Ok _ |- _ =>
      inversion E; subst; clear E end.
    exists key, (str_take (String.length key - 4) key), (str_last 4 key).
    split; [reflexivity|]. split; [apply Hsplit|]. split; [apply Hsplit|].
    rewrite dict_get_update, !dict_get_of. reflexivity.
  - unfold build_embedding_error_event in H. steps H. shape H.
    destruct Hin as [<-|[]].
    destruct (openai_api_key w) as [key|]; [|discriminate].
    match goal with E : api_key_last_four_digits _ = Ok _ |- _ =>
      inversion E; subst; clear E end.
    exists key, (str_take (String.length key - 4) key), (str_last 4 key).
    split; [reflexivity|]. split; [apply Hsplit|]. split; [apply Hsplit|].
    rewrite !dict_get_of. reflexivity.
Qed.

Lemma api_key_field_shows_last_four_witness :
  exists e key hidden shown,
    Some "sk-live-wxyz" = Some key /\
    key = (hidden ++ shown)%string /\
    String.length shown = Nat.min 4 (String.length key) /\
    dict_get "api_key_last_four_digits" e = Some (VStr ("sk-" ++ shown)).
Proof.
  eexists.
  refine (api_key_field_shows_last_four char_tokenizer
            (CallCompletionSummary response0 [("model", VStr "gpt-4")] []
               0.25%float (user_message "hello") (VStr "cid"))
            world0 _ _ _ _ eq_refl (or_introl eq_refl) eq_refl).
Defined.

(** X13. Without an API key no event is built: the completion-summary
    builder raises TypeError when the response object stores no key, and
    the two error builders raise TypeError when the client library's
    global key is not set, whatever the request and the error are. *)
Theorem builders_raise_without_api_key :
  (forall response request hs response_time final_message completion_id w,
     resp_api_key response = None ->
     fst (build_completion_summary response request hs response_time
            final_message completion_id w) = Raise TypeError) /\
  (forall request error completion_id isStream w,
     openai_api_key w = None ->
     fst (build_completion_summary_for_error request error completion_id
            isStream w) = Raise TypeError) /\
  (forall request error w,
     openai_api_key w = None ->
     fst (build_embedding_error_event request error w) = Raise TypeError).
Proof.
  repeat apply conj.
  - intros * H. unfold build_completion_summary, bind, get_conversation_id, lift.
    rewrite H. reflexivity.
  - intros * H.
    unfold build_completion_summary_for_error, bind, read_openai_api_key, lift.
    rewrite H. reflexivity.
  - intros * H.
    unfold build_embedding_error_event, bind, uuid4, read_openai_api_key, lift.
    cbn [openai_api_key drawn]. rewrite H. reflexivity.
Qed.

Lemma builders_raise_without_api_key_witness :
  fst (build_completion_summary_for_error [("model", VStr "gpt-4")]
         (error0 "slow down") (VStr "cid") false keyless_world)
  = Raise TypeError.
Proof.
  exact (proj1 (proj2 builders_raise_without_api_key)
           [("model", VStr "gpt-4")] (error0 "slow down") (VStr "cid") false
           keyless_world eq_refl).
Defined.

(** X14. A response with no choices gives no event: once the key and the
    response time have been read, the completion-summary builder raises
    IndexError on an empty choices list. *)
Theorem summary_raises_without_choices response request hs response_time
        final_message completion_id w key ms :
  resp_api_key response = Some key ->
  response_time_ms response_time = Ok ms ->
  resp_choices response = [] ->
  fst (build_completion_summary response request hs response_time
         final_message completion_id w) = Raise IndexError.
Proof.
  intros Hk Ht Hc.
  unfold build_completion_summary, bind, get_conversation_id, lift.
  rewrite Hk, Ht, Hc. reflexivity.
Qed.

Lemma summary_raises_without_choices_witness :
  fst (build_completion_summary response_without_choices
         [("model", VStr "gpt-4")] [] 0.25%float (user_message "hello")
         (VStr "cid") world0)
  = Raise IndexError.
Proof.
  eapply (summary_raises_without_choices response_without_choices);
    vm_compute; reflexivity.
Defined.

(** X15. The number_of_messages field counts the request's messages (none
    when the request has no messages key) plus the response's choices in a
    completion summary, plus one in a streaming completion, and plus
    nothing in a completion error. *)
Theorem number_of_messages_field :
  (forall response request hs response_time final_message completion_id
          w e w',
     build_completion_summary response request hs response_time final_message
                              completion_id w = (Ok e, w') ->
     exists n,
       len (get_default request "messages" (VList [])) = Ok n /\
       dict_get "number_of_messages" e
       = Some (VInt (n + Z.of_nat (List.length (resp_choices response))))) /\
  (forall tk last_chunk request hs message response_time completion_id
          w e w',
     build_stream_completion_events tk last_chunk request hs message
                                    response_time completion_id w
     = (Ok e, w') ->
     exists n,
       len (get_default request "messages" (VList [])) = Ok n /\
       dict_get "number_of_messages" e = Some (VInt (n + 1))) /\
  (forall request error completion_id isStream w e w',
     build_completion_summary_for_error request error completion_id isStream w
     = (Ok e, w') ->
     exists n,
       len (get_default request "messages" (VList [])) = Ok n /\
       dict_get "number_of_messages" e = Some (VInt n)) /\
  (forall request,
     dict_get "messages" request = None ->
     len (get_default request "messages" (VList [])) = Ok 0) /\
  (forall request ms,
     dict_get "messages" request = Some (VList ms) ->
     len (get_default request "messages" (VList []))
     = Ok (Z.of_nat (List.length ms))).
Proof.
  repeat apply conj.
  - intros * H. unfold build_completion_summary in H. steps H. shape H.
    eexists. split; [reflexivity|].
    rewrite dict_get_update, !dict_get_of. reflexivity.
  - intros * H. unfold build_stream_completion_events in H. steps H. shape H.
    eexists. split; [reflexivity|].
    rewrite dict_get_update, !dict_get_of. reflexivity.
  - intros * H. unfold build_completion_summary_for_error in H.
    steps H. shape H.
    eexists. split; [reflexivity|].
    rewrite !dict_get_of. reflexivity.
  - intros request H. unfold get_default. rewrite H. reflexivity.
  - intros request ms H. unfold get_default. rewrite H. reflexivity.
Qed.

Lemma number_of_messages_field_witness :
  exists e n,
    len (get_default [("model", VStr "gpt-4");
                      ("messages", VList [VDict (user_message "hi")])]
           "messages" (VList [])) = Ok n /\
    dict_get "number_of_messages" e = Some (VInt (n + 1)).
Proof.
  eexists.
  eapply (proj1 (proj2 number_of_messages_field) char_tokenizer response0
            [("model", VStr "gpt-4");
             ("messages", VList [VDict (user_message "hi")])] []
            (user_message "hello") 0.25%float (VStr "cid") world0).
  vm_compute. reflexivity.
Defined.

(** ** Request model, trace fields and embedding input *)

(** X16. Engine fallback: in every event built from a request, the field
    request.model is the request's model when that is true (present and not
    empty) and the request's engine otherwise, None when neither is
    given. *)
Theorem request_model_field tk c w es w' e request :
  run tk c w = (Ok es, w') ->
  In e es ->
  call_request c = Some request ->
  dict_get "request.model" e
  = Some (if truthy (get request "model")
          then get request "model" else get request "engine").
Proof.
  intros H Hin Hr.
  change (if truthy (get request "model")
          then get request "model" else get request "engine")
    with (request_model request).
  destruct c; cbn [run call_request] in *; try discriminate Hr;
    inversion Hr; subst; clear Hr.
  - unfold build_stream_completion_events in H. steps H. shape H.
    destruct Hin as [<-|[]]. rewrite dict_get_update, !dict_get_of. reflexivity.
  - unfold build_completion_summary in H. steps H. shape H.
    destruct Hin as [<-|[]]. rewrite dict_get_update, !dict_get_of. reflexivity.
  - unfold build_completion_summary_for_error in H. steps H. shape H.
    destruct Hin as [<-|[]]. rewrite !dict_get_of. reflexivity.
  - unfold build_embedding_event in H. steps H. shape H.
    destruct Hin as [<-|[]]. rewrite dict_get_update, !dict_get_of. reflexivity.
  - unfold build_embedding_error_event in H. steps H. shape H.
    destruct Hin as [<-|[]]. rewrite !dict_get_of. reflexivity.
Qed.

Lemma request_model_field_witness :
  exists e, dict_get "request.model" e = Some (VStr "davinci").
Proof.
  eexists.
  refine (request_model_field char_tokenizer
            (CallCompletionError [("model", VStr ""); ("engine", VStr "davinci")]
               (error0 "slow down") (VStr "cid") false)
            world0 _ _ _ _ eq_refl (or_introl eq_refl) eq_refl).
Defined.

(** X17. Every event except the feedback event carries the five trace
    fields of the world it is built in: span_id; trace_id and its legacy
    twin trace.id, always equal; transaction_id and its legacy twin
    transactionId, always equal, None when there is no current transaction
    (for the message builder: unless the caller's tags bind them).  A
    feedback event has none of the five. *)
Theorem events_trace_fields tk c w es w' e :
  run tk c w = (Ok es, w') ->
  In e es ->
  (forall k, In k trace_fields -> dict_get k (call_tags c) = None) ->
  let transaction_id :=
    match nr_transaction_guid w with Some guid => guid | None => VNone end in
  if is_feedback c
  then forall k, In k trace_fields -> dict_get k e = None
  else dict_get "span_id" e = Some (nr_span_id w) /\
       dict_get "trace_id" e = Some (nr_trace_id w) /\
       dict_get "trace.id" e = Some (nr_trace_id w) /\
       dict_get "transaction_id" e = Some transaction_id /\
       dict_get "transactionId" e = Some transaction_id.
Proof.
  intros H Hin Ht. cbv zeta.
  destruct c; cbn [run call_tags is_feedback] in *.
  - apply build_messages_events_indexed in H as (_ & Hlen & Hnth).
    apply In_nth_error in Hin as (i & He).
    destruct (nth_error_same_length messages es i e Hlen He) as (message & Hm).
    destruct (Hnth i message Hm) as (content & _ & He').
    rewrite He in He'. inversion He'; subst e; clear He'.
    unfold message_event_of.
    rewrite !dict_get_update_absent by (apply Ht; cbn; tauto).
    rewrite !dict_get_of.
    destruct model; destruct w; repeat split.
  - unfold build_stream_completion_events in H. steps H. shape H.
    destruct Hin as [<-|[]]. rewrite !dict_get_update, !dict_get_of.
    repeat split.
  - unfold build_completion_summary in H. steps H. shape H.
    destruct Hin as [<-|[]]. rewrite !dict_get_update, !dict_get_of.
    repeat split.
  - unfold build_completion_summary_for_error in H. steps H. shape H.
    destruct Hin as [<-|[]]. rewrite !dict_get_of. repeat split.
  - unfold build_embedding_event in H. steps H. shape H.
    destruct Hin as [<-|[]]. rewrite !dict_get_update, !dict_get_of.
    destruct w; repeat split.
  - unfold build_embedding_error_event in H. steps H. shape H.
    destruct Hin as [<-|[]]. rewrite !dict_get_of. destruct w; repeat split.
  - unfold build_ai_feedback_event in H. steps H. shape H.
    destruct Hin as [<-|[]].
    intros k [<-|[<-|[<-|[<-|[<-|[]]]]]]; reflexivity.
Qed.

Lemma events_trace_fields_witness :
  exists e,
    dict_get "span_id" e = Some (VStr "span-1") /\
    dict_get "trace_id" e = Some (VStr "trace-1") /\
    dict_get "trace.id" e = Some (VStr "trace-1") /\
    dict_get "transaction_id" e = Some (VStr "txn-1") /\
    dict_get "transactionId" e = Some (VStr "txn-1").
Proof.
  eexists.
  refine (events_trace_fields char_tokenizer
            (CallEmbeddingError [("model", VStr "text-embedding-ada-002")]
               (error0 "slow down"))
            world0 _ _ _ eq_refl (or_introl eq_refl) (fun _ _ => eq_refl)).
Defined.

(** X18. An embedding input that is a list, not a string, is cut by
    elements: the event keeps the first 4095 items of the list, whatever
    their lengths. *)
Theorem embedding_list_input_is_cut_by_items response request hs response_time
        w e w' items :
  build_embedding_event response request hs response_time w = (Ok e, w') ->
  get request "input" = VList items ->
  dict_get "input" e = Some (VList (firstn max_chars items)).
Proof.
  intros H Hin. unfold build_embedding_event in H.
  rewrite Hin in H. cbn [slice_to] in H. steps H. shape H.
  rewrite dict_get_update, !dict_get_of. reflexivity.
Qed.

Lemma embedding_list_input_is_cut_by_items_witness :
  exists e,
    dict_get "input" e
    = Some (VList (firstn max_chars [VStr "hello"; VStr "world"])).
Proof.
  eexists.
  eapply (embedding_list_input_is_cut_by_items response0
            [("model", VStr "text-embedding-ada-002");
             ("input", VList [VStr "hello"; VStr "world"])] []
            0.25%float world0);
    [vm_compute; reflexivity | reflexivity].
Defined.

(** ** Token counts *)

(** X19. Usage fields for models the counters do not support.  For a model
    with no encoding the streaming event has all three usage fields None.
    For a model that has an encoding but a name with neither "gpt-4" nor
    "gpt-3", the event has a completion count (a non-negative number) but
    no prompt count and no total. *)
Theorem stream_usage_for_unsupported_model tk last_chunk request hs message
        response_time completion_id w e w' :
  build_stream_completion_events tk last_chunk request hs message
                                 response_time completion_id w = (Ok e, w') ->
  (encoding_for_model tk (resp_model last_chunk) = None ->
   dict_get "usage.prompt_tokens" e = Some VNone /\
   dict_get "usage.completion_tokens" e = Some VNone /\
   dict_get "usage.total_tokens" e = Some VNone) /\
  (encoding_for_model tk (resp_model last_chunk) <> None ->
   contains "gpt-4" (resp_model last_chunk) = false ->
   contains "gpt-3" (resp_model last_chunk) = false ->
   dict_get "usage.prompt_tokens" e = Some VNone /\
   (exists n, 0 <= n /\ dict_get "usage.completion_tokens" e = Some (VInt n)) /\
   dict_get "usage.total_tokens" e = Some VNone).
Proof.
  intros H.
  destruct (stream_usage_fields _ _ _ _ _ _ _ _ _ _ H)
    as (prompt & completion & Hp & Hc & Fp & Fc & Ft).
  rewrite Fp, Fc, Ft. clear Fp Fc Ft H.
  unfold calc_prompt_tokens, calc_completion_tokens in Hp, Hc.
  split.
  - intros Hnone. rewrite Hnone in Hp, Hc.
    inversion Hp; inversion Hc; subst. repeat split.
  - intros Hsome H4 H3.
    destruct (encoding_for_model tk (resp_model last_chunk)) as [enc|];
      [|contradiction].
    rewrite H4, H3 in Hp. cbn in Hp. inversion Hp; subst prompt.
    apply res_bind_Ok in Hc as (n & Hn & Hc). inversion Hc; subst completion.
    split; [reflexivity|]. split.
    + exists n. split; [|reflexivity].
      eapply encoded_length_nonneg. exact Hn.
    + rewrite total_tokens_of_undefined by now right. reflexivity.
Qed.

Lemma stream_usage_for_unsupported_model_witness :
  exists e,
    dict_get "usage.prompt_tokens" e = Some VNone /\
    dict_get "usage.completion_tokens" e = Some VNone /\
    dict_get "usage.total_tokens" e = Some VNone.
Proof.
  destruct (stream_usage_for_unsupported_model char_tokenizer
              {| resp_api_key := Some "sk-live-wxyz";
                 resp_model := "claude-2";
                 resp_id := VNone; resp_usage := resp_usage response0;
                 resp_choices := resp_choices response0;
                 resp_api_type := VNone; resp_organization := VNone |}
              [("model", VStr "claude-2")] [] (user_message "hello")
              0.25%float (VStr "cid") world0 _ _ eq_refl) as [Hnone _].
  eexists. exact (Hnone eq_refl).
Defined.

(** X20. A streamed message whose content is None (as for a function call)
    gives no streaming event for a model the completion counter knows: once
    the prompt has been counted, counting the completion raises
    TypeError. *)
Theorem stream_raises_on_none_content tk last_chunk request hs message
        response_time completion_id w enc p :
  encoding_for_model tk (resp_model last_chunk) = Some enc ->
  calc_prompt_tokens tk (resp_model last_chunk)
    (get_default request "messages" (VList [])) = Ok p ->
  dict_get "content" message = Some VNone ->
  fst (build_stream_completion_events tk last_chunk request hs message
         response_time completion_id w) = Raise TypeError.
Proof.
  intros Henc Hp Hc.
  unfold build_stream_completion_events, bind, lift.
  rewrite Hp. unfold calc_completion_tokens, get_default.
  rewrite Henc, Hc. reflexivity.
Qed.

Lemma stream_raises_on_none_content_witness :
  fst (build_stream_completion_events char_tokenizer response0
         [("model", VStr "gpt-3.5-turbo");
          ("messages", VList [VDict (user_message "hi")])] []
         [("role", VStr "assistant"); ("content", VNone)]
         0.25%float (VStr "cid") world0) = Raise TypeError.
Proof.
  eapply (stream_raises_on_none_content char_tokenizer response0); reflexivity.
Defined.

Lemma count_items_from kvs : forall tk enc per_name acc,
  count_items tk enc per_name kvs acc =
  (n <~ count_items tk enc per_name kvs 0 ;; Ok (acc + n)).
Proof.
  induction kvs as [|[k v] kvs IH]; intros tk enc per_name acc.
  - cbn. now rewrite Z.add_0_r.
  - cbn [count_items]. destruct (encoded_length tk enc v) as [n|x];
      cbn [res_bind]; [|reflexivity].
    rewrite IH. rewrite (IH _ _ _ (if (k =? "name")%string then _ else _)).
    destruct (count_items tk enc per_name kvs 0) as [m|x]; cbn [res_bind];
      [|reflexivity].
    f_equal. destruct (k =? "name")%string; lia.
Qed.

Lemma count_messages_from ms : forall tk enc per_msg per_name acc,
  count_messages tk enc per_msg per_name ms acc =
  (n <~ count_messages tk enc per_msg per_name ms 0 ;; Ok (acc + n)).
Proof.
  induction ms as [|m ms IH]; intros tk enc per_msg per_name acc.
  - cbn. now rewrite Z.add_0_r.
  - cbn [count_messages]. destruct (items m) as [kvs|x]; cbn [res_bind];
      [|reflexivity].
    rewrite count_items_from. rewrite (count_items_from _ _ _ _ (0 + per_msg)).
    destruct (count_items tk enc per_name kvs 0) as [n|x]; cbn [res_bind];
      [|reflexivity].
    rewrite IH. rewrite (IH _ _ _ _ (0 + per_msg + n)).
    destruct (count_messages tk enc per_msg per_name ms 0) as [k|x];
      cbn [res_bind]; [|reflexivity].
    f_equal. lia.
Qed.

Lemma count_messages_app ms1 : forall tk enc per_msg per_name ms2 acc,
  count_messages tk enc per_msg per_name (ms1 ++ ms2) acc =
  (n <~ count_messages tk enc per_msg per_name ms1 acc ;;
   count_messages tk enc per_msg per_name ms2 n).
Proof.
  induction ms1 as [|m ms1 IH]; intros tk enc per_msg per_name ms2 acc.
  - reflexivity.
  - cbn [app count_messages]. destruct (items m) as [kvs|x]; cbn [res_bind];
      [|reflexivity].
    destruct (count_items tk enc per_name kvs (acc + per_msg)) as [n|x];
      cbn [res_bind]; [|reflexivity].
    apply IH.
Qed.

(** X21. Prompt counts add up: when two message lists each have a prompt
    count, their concatenation has the sum of the two counts less 3, the
    base overhead being counted once. *)
Theorem prompt_tokens_of_concatenation tk model ms1 ms2 a b :
  calc_prompt_tokens tk model (VList ms1) = Ok (Some a) ->
  calc_prompt_tokens tk model (VList ms2) = Ok (Some b) ->
  calc_prompt_tokens tk model (VList (ms1 ++ ms2)) = Ok (Some (a + b - 3)).
Proof.
  unfold calc_prompt_tokens.
  destruct (encoding_for_model tk model) as [enc|]; [|discriminate].
  destruct (negb (contains "gpt-4" model) && negb (contains "gpt-3" model));
    [discriminate|].
  cbn [iter res_bind]. intros H1 H2.
  apply res_bind_Ok in H1 as (n1 & H1 & E1). inversion E1; subst a.
  apply res_bind_Ok in H2 as (n2 & H2 & E2). inversion E2; subst b.
  rewrite count_messages_from in H2.
  apply res_bind_Ok in H2 as (k & Hk & Ek).
  assert (En : n2 = 3 + k) by congruence. subst n2. clear Ek E1 E2.
  rewrite count_messages_app, H1. unfold res_bind at 2.
  rewrite count_messages_from, Hk. unfold res_bind.
  replace (n1 + (3 + k) - 3) with (n1 + k) by lia. reflexivity.
Qed.

Lemma prompt_tokens_of_concatenation_witness :
  calc_prompt_tokens char_tokenizer "gpt-4"
    (VList ([VDict (user_message "hi")] ++ [VDict (user_message "there")]))
  = Ok (Some (12 + 15 - 3)).
Proof.
  apply prompt_tokens_of_concatenation; reflexivity.
Defined.

Lemma count_items_without_name tk enc per_name : forall kvs acc n,
  ~ In "name" (map fst kvs) ->
  count_items tk enc per_name kvs acc = Ok n -> acc <= n.
Proof.
  induction kvs as [|[k v] kvs IH]; intros acc n Hno H.
  - inversion H. lia.
  - cbn [count_items] in H. apply res_bind_Ok in H as (m & Hm & H).
    assert (0 <= m) by (eapply encoded_length_nonneg; exact Hm).
    destruct (String.eqb_spec k "name") as [->|_].
    + exfalso. apply Hno. now left.
    + apply IH in H; [lia|]. intros Hin. apply Hno. now right.
Qed.

Lemma count_items_lower_bound tk enc per_name : forall kvs acc n,
  NoDup (map fst kvs) ->
  count_items tk enc per_name kvs acc = Ok n ->
  acc + Z.min 0 per_name <= n.
Proof.
  induction kvs as [|[k v] kvs IH]; intros acc n Hnd H.
  - inversion H. lia.
  - cbn [count_items] in H. apply res_bind_Ok in H as (m & Hm & H).
    assert (0 <= m) by (eapply encoded_length_nonneg; exact Hm).
    inversion Hnd as [|? ? Hnotin Hrest]; subst.
    destruct (String.eqb_spec k "name") as [->|_].
    + apply count_items_without_name in H; [lia | exact Hnotin].
    + apply IH in H; [lia | exact Hrest].
Qed.

Lemma count_messages_lower_bound tk enc per_msg per_name :
  3 <= per_msg -> 3 <= per_msg + per_name ->
  forall ms acc n,
    (forall kvs, In (VDict kvs) ms -> NoDup (map fst kvs)) ->
    count_messages tk enc per_msg per_name ms acc = Ok n ->
    acc + 3 * Z.of_nat (List.length ms) <= n.
Proof.
  intros Hmsg Hname.
  induction ms as [|m ms IH]; intros acc n Hnd H.
  - inversion H. cbn. lia.
  - cbn [count_messages] in H.
    apply res_bind_Ok in H as (kvs & Hkvs & H).
    apply res_bind_Ok in H as (k & Hk & H).
    destruct m; try discriminate Hkvs. inversion Hkvs; subst kvs0.
    apply count_items_lower_bound in Hk; [|apply Hnd; now left].
    apply IH in H; [|intros d Hd; apply Hnd; now right].
    cbn [List.length]. lia.
Qed.

(** X22. A prompt count is never small: over a list of messages (dicts,
    with distinct keys) it is at least 3 plus 3 for every message, for the
    legacy model as for the others; in particular it is never 0, so the
    truth test on the prompt count in the streaming builder only fails
    when the count is undefined. *)
Theorem prompt_tokens_lower_bound tk model ms p :
  calc_prompt_tokens tk model (VList ms) = Ok (Some p) ->
  (forall kvs, In (VDict kvs) ms -> NoDup (map fst kvs)) ->
  3 + 3 * Z.of_nat (List.length ms) <= p /\
  truthy (count_value (Some p)) = true.
Proof.
  intros H Hnd.
  assert (Hp : 3 + 3 * Z.of_nat (List.length ms) <= p).
  { unfold calc_prompt_tokens in H.
    destruct (encoding_for_model tk model) as [enc|]; [|discriminate].
    destruct (negb (contains "gpt-4" model) && negb (contains "gpt-3" model));
      [discriminate|].
    cbn [iter] in H. unfold res_bind at 1 in H.
    apply res_bind_Ok in H as (n & Hn & E).
    assert (n = p) by congruence. subst n.
    eapply count_messages_lower_bound; [| |exact Hnd|exact Hn];
      destruct (model =? "gpt-3.5-turbo-0301")%string; lia. }
  split; [exact Hp|].
  cbn [count_value truthy]. destruct (Z.eqb_spec p 0); [lia|reflexivity].
Qed.

Lemma prompt_tokens_lower_bound_witness :
  3 + 3 * Z.of_nat 1 <= 14 /\ truthy (count_value (Some 14)) = true.
Proof.
  apply (prompt_tokens_lower_bound char_tokenizer "gpt-3.5-turbo-0301"
           [VDict [("role", VStr "user"); ("name", VStr "al");
                   ("content", VStr "hi")]] 14).
  - reflexivity.
  - intros kvs [E|[]]. inversion E; subst.
    repeat constructor; cbn; intuition discriminate.
Defined.

(** ** What a call leaves behind *)

(** X23. A returning call changes the ambient state in two ways only: it
    draws uuids (two for each message, one for an embedding,
    embedding-error or feedback event, none for the completion builders),
    and the message builder, given a model, first overwrites the
    response-model variable.  The clock, the tracing state, the
    conversation id and the global key are as before. *)
Theorem call_effects tk c w es w' :
  run tk c w = (Ok es, w') ->
  w' = drawn (uuids_drawn_by c)
         match c with
         | CallMessages _ model _ _ _ _ _ => loop_world model w
         | _ => w
         end.
Proof.
  intros H. destruct c; cbn [run uuids_drawn_by] in *.
  - apply build_messages_events_indexed in H. apply H.
  - unfold build_stream_completion_events in H. steps H. peel H.
    inversion H. now rewrite drawn_0.
  - unfold build_completion_summary in H. steps H. peel H.
    inversion H. now rewrite drawn_0.
  - unfold build_completion_summary_for_error in H. steps H. peel H.
    inversion H. now rewrite drawn_0.
  - unfold build_embedding_event in H. steps H. peel H.
    inversion H. reflexivity.
  - unfold build_embedding_error_event in H. steps H. peel H.
    inversion H. reflexivity.
  - unfold build_ai_feedback_event in H. steps H.
    inversion H. reflexivity.
Qed.

Lemma call_effects_witness :
  snd (run char_tokenizer
         (CallMessages [user_message "hi"; user_message "there"]
            (Some "gpt-4") (VStr "cid") None None [] 0)
         world0)
  = drawn 4 (with_response_model (VStr "gpt-4") world0).
Proof.
  eapply (call_effects char_tokenizer
            (CallMessages [user_message "hi"; user_message "there"]
               (Some "gpt-4") (VStr "cid") None None [] 0)
            world0).
  vm_compute. reflexivity.
Defined.

(** ** False contents *)

Lemma false_content_is_empty message :
  truthy (get message "content") = false ->
  slice_to max_chars (or_ (get message "content") (VStr "")) = Ok (VStr "").
Proof. intros H. unfold or_. rewrite H. reflexivity. Qed.

(** X24. A content that is false in the truth test (missing, None, the
    empty string, 0, False, an empty list) is recorded as the empty string:
    in the content field of the message event built from such a message
    (unless the caller's tags bind content), and in the response field of
    the completion summary built from such a final message. *)
Theorem false_content_recorded_as_empty_string :
  (forall messages model completion_id override response_id tags start
          w es w',
     build_messages_events messages model completion_id override response_id
                           tags start w = (Ok es, w') ->
     dict_get "content" tags = None ->
     Forall2 (fun message e =>
                truthy (get message "content") = false ->
                dict_get "content" e = Some (VStr ""))
             messages es) /\
  (forall response request hs response_time final_message completion_id
          w e w',
     build_completion_summary response request hs response_time final_message
                              completion_id w = (Ok e, w') ->
     truthy (get final_message "content") = false ->
     dict_get "response" e = Some (VStr "")).
Proof.
  split.
  - intros * H Ht.
    apply build_messages_events_shape in H.
    eapply Forall2_impl; [|exact H].
    intros message e (i & content & w0 & _ & Hcut & ->) Hfalse.
    rewrite (false_content_is_empty _ Hfalse) in Hcut.
    inversion Hcut; subst content.
    unfold message_event_of. rewrite dict_get_update_absent by assumption.
    rewrite dict_get_of, last_binding_app. reflexivity.
  - intros * H Hfalse. unfold build_completion_summary in H.
    rewrite (false_content_is_empty _ Hfalse) in H. steps H. shape H.
    rewrite dict_get_update, !dict_get_of. reflexivity.
Qed.

Lemma false_content_recorded_as_empty_string_witness :
  exists e, dict_get "response" e = Some (VStr "").
Proof.
  eexists.
  eapply (proj2 false_content_recorded_as_empty_string response0
            [("model", VStr "gpt-4")] [] 0.25%float
            [("role", VStr "assistant"); ("content", VInt 0)] (VStr "cid")
            world0);
    [vm_compute; reflexivity | reflexivity].
Defined.
